(** * ollama-mcp: the tool operations of [server.py] and their stream accumulator

    A shallow embedding of [server.py]: the unary request executor
    [_request], the NDJSON stream accumulator [_request_stream] and the
    eight registered tool operations, followed by the properties the
    specification states about them.

    Python values are embedded as the type [json] (what [json.loads]
    produces: [None], booleans, integers, floats, strings, lists, dicts).
    Raised exceptions are explicit: every function that can raise returns
    a [result].  What belongs to the Python runtime or to httpx and not to
    this repository (the JSON decoder and encoder, the rendering of an
    exception or of a value by [str], floating-point formatting, the
    backend itself) is a field of [Runtime] or of [Backend]; the theorems
    hold for every such runtime and backend.

    Characters are code points below 256, strings are [string]. *)

From Stdlib Require Import String Ascii List ZArith Bool Lia.
From Stdlib Require Import Floats.SpecFloat.
Import ListNotations.
Open Scope list_scope.
Open Scope string_scope.
Set Warnings "-register-all".

(** ** Python values *)

Inductive json : Type :=
| JNull
| JBool (b : bool)
| JInt (z : Z)
| JFloat (f : spec_float)
| JStr (s : string)
| JArr (items : list json)
| JObj (fields : list (string * json)).

(** A dict, in insertion order, with distinct keys. *)
Definition pydict := list (string * json).

(** ** Exceptions

    The exceptions the code and its collaborators raise on failure; all of
    them derive from [Exception].  [HTTPStatusError] and [TransportError]
    derive from [httpx.HTTPError]. *)

Inductive exn : Type :=
| HTTPStatusError (status : Z) (body : option string)
    (* raise_for_status; the body is [Some] once it has been read *)
| TransportError (detail : string)
    (* httpx.ConnectError, ReadError, ReadTimeout, RemoteProtocolError, ... *)
| JSONDecodeError (doc : string)
| AttributeError (receiver : json) (attr : string)
| TypeError (operation : string) (operand : json)
| KeyError (key : string)
| OtherException (detail : string).

Inductive result (A : Type) : Type :=
| Ok (a : A)
| Err (e : exn).
Arguments Ok {A} a.
Arguments Err {A} e.

Definition bind {A B : Type} (m : result A) (k : A -> result B) : result B :=
  match m with
  | Ok a => k a
  | Err e => Err e
  end.

Notation "x <- m ;; k" := (bind m (fun x => k))
  (at level 61, m at next level, right associativity).

(** [isinstance(e, httpx.HTTPError)] *)
Definition is_HTTPError (e : exn) : bool :=
  match e with
  | HTTPStatusError _ _ | TransportError _ => true
  | _ => false
  end.

(** [isinstance(e, json.JSONDecodeError)] *)
Definition is_JSONDecodeError (e : exn) : bool :=
  match e with
  | JSONDecodeError _ => true
  | _ => false
  end.

(** [isinstance(e, Exception)] *)
Definition is_Exception (e : exn) : bool := true.

(** ** Strings *)

Definition nl : string := String (ascii_of_nat 10) EmptyString.

(** [str.isspace] on one character (code points below 256). *)
Definition is_space (c : ascii) : bool :=
  let n := nat_of_ascii c in
  (Nat.leb 9 n && Nat.leb n 13) || (Nat.leb 28 n && Nat.leb n 32)
  || Nat.eqb n 133 || Nat.eqb n 160.

Fixpoint lstrip (s : string) : string :=
  match s with
  | EmptyString => EmptyString
  | String c r => if is_space c then lstrip r else s
  end.

Fixpoint rstrip (s : string) : string :=
  match s with
  | EmptyString => EmptyString
  | String c r =>
      match rstrip r with
      | EmptyString => if is_space c then EmptyString else String c EmptyString
      | r' => String c r'
      end
  end.

(** [s.strip()] *)
Definition strip (s : string) : string := rstrip (lstrip s).

(** [s.lstrip('/')] and [s.rstrip('/')] *)
Fixpoint lstrip_slash (s : string) : string :=
  match s with
  | EmptyString => EmptyString
  | String c r => if Ascii.eqb c "/" then lstrip_slash r else s
  end.

Fixpoint rstrip_slash (s : string) : string :=
  match s with
  | EmptyString => EmptyString
  | String c r =>
      match rstrip_slash r with
      | EmptyString => if Ascii.eqb c "/" then EmptyString else String c EmptyString
      | r' => String c r'
      end
  end.

Definition is_empty (s : string) : bool :=
  match s with
  | EmptyString => true
  | _ => false
  end.

(** ** Python operations on values *)

(** [bool(v)] *)
Definition truthy (v : json) : bool :=
  match v with
  | JNull => false
  | JBool b => b
  | JInt z => negb (Z.eqb z 0)
  | JFloat (S754_zero _) => false
  | JFloat _ => true
  | JStr s => negb (is_empty s)
  | JArr l => match l with [] => false | _ => true end
  | JObj o => match o with [] => false | _ => true end
  end.

(** [a or b] *)
Definition py_or (a b : json) : json := if truthy a then a else b.

(** [isinstance(v, dict)] *)
Definition is_dict (v : json) : bool :=
  match v with
  | JObj _ => true
  | _ => false
  end.

Fixpoint lookup (k : string) (d : pydict) : option json :=
  match d with
  | [] => None
  | (k', v) :: r => if String.eqb k k' then Some v else lookup k r
  end.

(** [k in d] *)
Definition contains (k : string) (d : pydict) : bool :=
  match lookup k d with
  | Some _ => true
  | None => false
  end.

(** [d[k] = v]: an existing key keeps its position. *)
Fixpoint dict_set (k : string) (v : json) (d : pydict) : pydict :=
  match d with
  | [] => [(k, v)]
  | (k', v') :: r =>
      if String.eqb k k' then (k, v) :: r else (k', v') :: dict_set k v r
  end.

(** [v.get(k, default)]: only a dict has [get]. *)
Definition py_get_default (v : json) (k : string) (default : json) : result json :=
  match v with
  | JObj d =>
      match lookup k d with
      | Some x => Ok x
      | None => Ok default
      end
  | _ => Err (AttributeError v "get")
  end.

(** [v.get(k)] *)
Definition py_get (v : json) (k : string) : result json :=
  py_get_default v k JNull.

(** [d.get(k)] on a dict *)
Definition dict_get (d : pydict) (k : string) : json :=
  match lookup k d with
  | Some x => x
  | None => JNull
  end.

(** [v[k]] with a string key *)
Definition py_getitem (v : json) (k : string) : result json :=
  match v with
  | JObj d =>
      match lookup k d with
      | Some x => Ok x
      | None => Err (KeyError k)
      end
  | _ => Err (TypeError "getitem" v)
  end.

(** [isinstance(v, dict) and v.get(k)] *)
Definition dict_and_get (v : json) (k : string) : json :=
  match v with
  | JObj d => dict_get d k
  | _ => JBool false
  end.

(** [isinstance(v, dict) and k in v] *)
Definition dict_and_in (v : json) (k : string) : bool :=
  match v with
  | JObj d => contains k d
  | _ => false
  end.

(** [sep.join(parts)]: the first element that is not a [str] raises. *)
Fixpoint py_join (sep : string) (parts : list json) : result string :=
  match parts with
  | [] => Ok ""
  | JStr s :: r =>
      match r with
      | [] => Ok s
      | _ => rest <- py_join sep r ;; Ok (s ++ sep ++ rest)
      end
  | v :: _ => Err (TypeError "join" v)
  end.

(** [for x in v]: the elements a [for] loop visits. *)
Definition py_iter (v : json) : result (list json) :=
  match v with
  | JArr l => Ok l
  | JStr s => Ok (map (fun c => JStr (String c EmptyString)) (list_ascii_of_string s))
  | JObj d => Ok (map (fun kv => JStr (fst kv)) d)
  | _ => Err (TypeError "iter" v)
  end.

(** [len(v)] *)
Definition py_len (v : json) : result Z :=
  match v with
  | JArr l => Ok (Z.of_nat (List.length l))
  | JStr s => Ok (Z.of_nat (String.length s))
  | JObj d => Ok (Z.of_nat (List.length d))
  | _ => Err (TypeError "len" v)
  end.

(** ** The runtime and the backend

    [Runtime] gathers what the interpreter and its libraries compute:
    [json.loads] (it raises [JSONDecodeError] on text that is not JSON,
    and may raise something else where the interpreter sets a limit),
    [json.dumps] with and without [indent=2], [str(e)] of an exception,
    [str(v)] of a value that is not a string, and the float expression
    [f"{size / (1024**2):.0f}"] of [list_models]. *)

Record Runtime : Type := {
  json_loads : string -> result json;
  json_dumps : json -> string;
  json_dumps_indent2 : json -> string;
  exn_str : exn -> string;
  py_repr : json -> string;
  format_mb : json -> result string
}.

Record request : Type := {
  req_method : string;
  req_url : string;
  req_json : option json
}.

(** What [client.request] does: it raises, or it returns a response whose
    body has been read. *)
Inductive outcome : Type :=
| Refused (e : exn)
| Response (status_code : Z) (content : string).

(** What [client.stream] does: it raises on entry, or it opens a response
    whose lines [aiter_lines] yields one by one; [stream_drop] is the
    exception [aiter_lines] raises after the last line it could read, if
    the connection fails. *)
Record stream : Type := {
  stream_status : Z;
  stream_lines : list string;
  stream_drop : option exn
}.

Inductive stream_outcome : Type :=
| StreamRefused (e : exn)
| StreamOpened (s : stream).

Record Backend : Type := {
  OLLAMA_BASE : string;
  send : request -> outcome;
  send_stream : request -> stream_outcome
}.

(** [Response.is_success], the test of [raise_for_status] *)
Definition is_success (status : Z) : bool :=
  (Z.leb 200 status && Z.leb status 299)%bool.

(** [str(v)] as an f-string field renders it *)
Definition py_str (rt : Runtime) (v : json) : string :=
  match v with
  | JStr s => s
  | _ => py_repr rt v
  end.

Definition OLLAMA_API (be : Backend) : string :=
  rstrip_slash (OLLAMA_BASE be) ++ "/api".

Definition _api_url (be : Backend) (path : string) : string :=
  rstrip_slash (OLLAMA_API be) ++ "/" ++ lstrip_slash path.

(** ** The unary request executor *)

Definition _request (rt : Runtime) (be : Backend)
    (method path : string) (payload : option json) : result json :=
  let url := _api_url be path in
  match send be {| req_method := method; req_url := url; req_json := payload |} with
  | Refused e => Err e
  | Response status content =>
      if is_success status then                       (* resp.raise_for_status() *)
        if negb (is_empty content) then               (* if resp.content: *)
          json_loads rt content                       (*   return resp.json() *)
        else Ok (JObj [])                             (* return {} *)
      else Err (HTTPStatusError status (Some content))
  end.

(** ** The stream accumulator *)

Record acc : Type := {
  content_parts : list json;
  thinking_parts : list json
}.

Definition acc_empty : acc := {| content_parts := []; thinking_parts := [] |}.

(** The body of the loop once [json.loads] has produced [chunk]. *)
Definition process_chunk (content_key : string) (chunk : json) (st : acc) : result acc :=
  match chunk with
  | JObj c =>
      (* msg = chunk.get("message") or {} *)
      let msg := py_or (dict_get c "message") (JObj []) in
      thinking <-
        (if truthy (dict_and_get msg "thinking") then
           v <- py_getitem msg "thinking" ;; Ok (thinking_parts st ++ [v])%list
         else if truthy (dict_get c "thinking") then
           v <- py_getitem chunk "thinking" ;; Ok (thinking_parts st ++ [v])%list
         else Ok (thinking_parts st)) ;;
      content <-
        (if dict_and_in msg content_key then
           v <- py_getitem msg content_key ;;
           Ok (content_parts st ++ [py_or v (JStr "")])%list
         else if contains content_key c then
           v <- py_getitem chunk content_key ;;
           Ok (content_parts st ++ [py_or v (JStr "")])%list
         else Ok (content_parts st)) ;;
      Ok {| content_parts := content; thinking_parts := thinking |}
  | _ => Err (AttributeError chunk "get")             (* chunk.get on a non-dict *)
  end.

(** One iteration of [async for line in resp.aiter_lines()]. *)
Definition process_line (rt : Runtime) (content_key : string)
    (line : string) (st : acc) : result acc :=
  let line := strip line in
  if is_empty line then Ok st                         (* if not line: continue *)
  else
    match json_loads rt line with
    | Ok chunk => process_chunk content_key chunk st
    | Err e =>
        if is_JSONDecodeError e then Ok st            (* except json.JSONDecodeError: continue *)
        else Err e
    end.

Fixpoint consume (rt : Runtime) (content_key : string)
    (lines : list string) (st : acc) : result acc :=
  match lines with
  | [] => Ok st
  | line :: rest =>
      st' <- process_line rt content_key line st ;;
      consume rt content_key rest st'
  end.

(** The statements after the loop. *)
Definition finish (st : acc) : result string :=
  content <- py_join "" (content_parts st) ;;
  match thinking_parts st with
  | [] => Ok content
  | _ =>
      joined <- py_join " " (thinking_parts st) ;;
      Ok ("[Thinking] " ++ strip joined ++ nl ++ nl ++ content)
  end.

Definition _request_stream (rt : Runtime) (be : Backend)
    (path : string) (payload : pydict) (content_key : string) : result string :=
  let url := _api_url be path in
  let payload := dict_set "stream" (JBool true) payload in
  match send_stream be
          {| req_method := "POST"; req_url := url; req_json := Some (JObj payload) |} with
  | StreamRefused e => Err e
  | StreamOpened s =>
      if is_success (stream_status s) then            (* resp.raise_for_status() *)
        st <- consume rt content_key (stream_lines s) acc_empty ;;
        match stream_drop s with
        | Some e => Err e                             (* aiter_lines raises *)
        | None => finish st
        end
      else Err (HTTPStatusError (stream_status s) None)
  end.

(** ** Tool operations

    Every tool is one [try] block with the same two [except] clauses.
    [http_reply] is the f-string of the first clause, applied to [str(e)]. *)

Definition except_clauses (rt : Runtime) (http_reply : string -> string)
    (body : result json) : result json :=
  match body with
  | Ok v => Ok v
  | Err e =>
      if is_HTTPError e then                          (* except httpx.HTTPError as e *)
        Ok (JStr (http_reply (exn_str rt e)))
      else if is_Exception e then                     (* except Exception as e *)
        Ok (JStr ("Error: " ++ exn_str rt e))
      else Err e
  end.

Definition request_failed (detail : string) : string :=
  "Ollama request failed: " ++ detail.

Definition request_failed_hint (be : Backend) (detail : string) : string :=
  "Ollama request failed: " ++ detail ++ ". Is Ollama running at "
    ++ OLLAMA_BASE be ++ "?".

(** [for m in models: ... lines.append(f"- {name} ({size_mb})")] *)
Fixpoint list_models_lines (rt : Runtime) (models : list json) : result (list json) :=
  match models with
  | [] => Ok []
  | m :: rest =>
      name <- py_get_default m "name" (JStr "?") ;;
      size <- py_get m "size" ;;
      size_mb <- (if truthy size then
                    mb <- format_mb rt size ;; Ok (mb ++ " MB")
                  else Ok "?") ;;
      lines <- list_models_lines rt rest ;;
      Ok (JStr ("- " ++ py_str rt name ++ " (" ++ size_mb ++ ")") :: lines)
  end.

Definition list_models_try (rt : Runtime) (be : Backend) : result json :=
  data <- _request rt be "GET" "tags" None ;;
  m <- py_get data "models" ;;
  let models := py_or m (JArr []) in
  if negb (truthy models) then
    Ok (JStr "No models installed. Use pull_model to pull a model (e.g. llama3.2).")
  else
    items <- py_iter models ;;
    lines <- list_models_lines rt items ;;
    out <- py_join nl lines ;;
    Ok (JStr out).

Definition list_models (rt : Runtime) (be : Backend) : result json :=
  except_clauses rt (request_failed_hint be) (list_models_try rt be).

(** [f"- {m.get('name', '?')}" for m in models] *)
Fixpoint running_lines (rt : Runtime) (models : list json) : result (list json) :=
  match models with
  | [] => Ok []
  | m :: rest =>
      name <- py_get_default m "name" (JStr "?") ;;
      lines <- running_lines rt rest ;;
      Ok (JStr ("- " ++ py_str rt name) :: lines)
  end.

Definition list_running_models_try (rt : Runtime) (be : Backend) : result json :=
  data <- _request rt be "GET" "ps" None ;;
  m <- py_get data "models" ;;
  let models := py_or m (JArr []) in
  if negb (truthy models) then Ok (JStr "No models currently loaded.")
  else
    items <- py_iter models ;;
    lines <- running_lines rt items ;;
    out <- py_join nl lines ;;
    Ok (JStr out).

Definition list_running_models (rt : Runtime) (be : Backend) : result json :=
  except_clauses rt request_failed (list_running_models_try rt be).

Definition show_model_try (rt : Runtime) (be : Backend) (model : string) : result json :=
  data <- _request rt be "POST" "show" (Some (JObj [("name", JStr model)])) ;;
  Ok (JStr (json_dumps_indent2 rt data)).

Definition show_model (rt : Runtime) (be : Backend) (model : string) : result json :=
  except_clauses rt request_failed (show_model_try rt be model).

(** The argument [messages: list[dict[str, str]]] as a value. *)
Definition messages_json (messages : list (list (string * string))) : json :=
  JArr (map (fun d => JObj (map (fun kv => (fst kv, JStr (snd kv))) d)) messages).

(** [{"model": model, "messages": messages, "stream": False}] *)
Definition chat_payload (model : string) (messages : list (list (string * string)))
    : pydict :=
  [("model", JStr model); ("messages", messages_json messages); ("stream", JBool false)].

Definition chat_try (rt : Runtime) (be : Backend) (model : string)
    (messages : list (list (string * string))) (stream : bool) : result json :=
  if stream then
    out <- _request_stream rt be "chat"
             [("model", JStr model); ("messages", messages_json messages)]
             "content" ;;
    Ok (JStr out)
  else
    let payload := chat_payload model messages in
    data <- _request rt be "POST" "chat" (Some (JObj payload)) ;;
    m <- py_get data "message" ;;
    let msg := py_or m (JObj []) in
    c <- py_get msg "content" ;;
    let content := py_or c (JStr "") in
    t <- py_get msg "thinking" ;;
    if truthy t then
      t' <- py_get msg "thinking" ;;
      Ok (JStr ("[Thinking] " ++ py_str rt t' ++ nl ++ nl ++ py_str rt content))
    else Ok content.

Definition chat (rt : Runtime) (be : Backend) (model : string)
    (messages : list (list (string * string))) (stream : bool) : result json :=
  except_clauses rt request_failed (chat_try rt be model messages stream).

(** The payload of [generate] before the [stream] key is set. *)
Definition generate_payload (model prompt : string) (system : option string) : pydict :=
  let payload := [("model", JStr model); ("prompt", JStr prompt)] in
  match system with
  | Some sys => if negb (is_empty sys) then dict_set "system" (JStr sys) payload
                else payload                           (* if system: *)
  | None => payload
  end.

Definition generate_try (rt : Runtime) (be : Backend) (model prompt : string)
    (system : option string) (stream : bool) : result json :=
  let payload := generate_payload model prompt system in
  if stream then
    out <- _request_stream rt be "generate" payload "response" ;;
    Ok (JStr out)
  else
    let payload := dict_set "stream" (JBool false) payload in
    data <- _request rt be "POST" "generate" (Some (JObj payload)) ;;
    r <- py_get data "response" ;;
    let response := py_or r (JStr "") in
    t <- py_get data "thinking" ;;
    if truthy t then
      t' <- py_get data "thinking" ;;
      Ok (JStr ("[Thinking] " ++ py_str rt t' ++ nl ++ nl ++ py_str rt response))
    else Ok response.

Definition generate (rt : Runtime) (be : Backend) (model prompt : string)
    (system : option string) (stream : bool) : result json :=
  except_clauses rt request_failed (generate_try rt be model prompt system stream).

(** [text: str | list[str]] *)
Definition embed_try (rt : Runtime) (be : Backend) (model : string)
    (text : string + list string) : result json :=
  let inputs :=
    match text with
    | inl t => [JStr t]                               (* isinstance(text, str) *)
    | inr ts => map JStr ts
    end in
  let payload := [("model", JStr model); ("input", JArr inputs)] in
  data <- _request rt be "POST" "embed" (Some (JObj payload)) ;;
  e <- py_get data "embeddings" ;;
  let embeddings := py_or e (JArr []) in
  count <- py_len embeddings ;;
  Ok (JStr (json_dumps rt (JObj [("embeddings", embeddings); ("count", JInt count)]))).

Definition embed (rt : Runtime) (be : Backend) (model : string)
    (text : string + list string) : result json :=
  except_clauses rt request_failed (embed_try rt be model text).

Definition pull_model_try (rt : Runtime) (be : Backend) (name : string)
    (insecure : bool) : result json :=
  let payload := [("name", JStr name)] in
  let payload := if insecure then dict_set "insecure" (JBool true) payload
                 else payload in
  data <- _request rt be "POST" "pull" (Some (JObj payload)) ;;
  status <- py_get_default data "status" (JStr "unknown") ;;
  Ok (JStr ("Pull status: " ++ py_str rt status ++ ". Check Ollama for progress.")).

Definition pull_model (rt : Runtime) (be : Backend) (name : string)
    (insecure : bool) : result json :=
  except_clauses rt request_failed (pull_model_try rt be name insecure).

Definition delete_model_try (rt : Runtime) (be : Backend) (name : string) : result json :=
  _ <- _request rt be "DELETE" "delete" (Some (JObj [("name", JStr name)])) ;;
  Ok (JStr ("Deleted model: " ++ name)).

Definition delete_model (rt : Runtime) (be : Backend) (name : string) : result json :=
  except_clauses rt request_failed (delete_model_try rt be name).

(** ** The registrations

    One entry per [@mcp.tool()] in the file, in order; a call names a
    registered function and carries its arguments. *)

Definition registered_tools : list string :=
  [ "list_models"; "list_running_models"; "show_model"; "chat"; "generate";
    "embed"; "pull_model"; "delete_model" ].

Inductive tool_call : Type :=
| ListModels
| ListRunningModels
| ShowModel (model : string)
| Chat (model : string) (messages : list (list (string * string))) (stream : bool)
| Generate (model prompt : string) (system : option string) (stream : bool)
| Embed (model : string) (text : string + list string)
| PullModel (name : string) (insecure : bool)
| DeleteModel (name : string).

Definition tool_name (c : tool_call) : string :=
  match c with
  | ListModels => "list_models"
  | ListRunningModels => "list_running_models"
  | ShowModel _ => "show_model"
  | Chat _ _ _ => "chat"
  | Generate _ _ _ _ => "generate"
  | Embed _ _ => "embed"
  | PullModel _ _ => "pull_model"
  | DeleteModel _ => "delete_model"
  end.

(** The [try] block of the called tool. *)
Definition tool_try (rt : Runtime) (be : Backend) (c : tool_call) : result json :=
  match c with
  | ListModels => list_models_try rt be
  | ListRunningModels => list_running_models_try rt be
  | ShowModel model => show_model_try rt be model
  | Chat model messages stream => chat_try rt be model messages stream
  | Generate model prompt system stream => generate_try rt be model prompt system stream
  | Embed model text => embed_try rt be model text
  | PullModel name insecure => pull_model_try rt be name insecure
  | DeleteModel name => delete_model_try rt be name
  end.

Definition call_tool (rt : Runtime) (be : Backend) (c : tool_call) : result json :=
  match c with
  | ListModels => list_models rt be
  | ListRunningModels => list_running_models rt be
  | ShowModel model => show_model rt be model
  | Chat model messages stream => chat rt be model messages stream
  | Generate model prompt system stream => generate rt be model prompt system stream
  | Embed model text => embed rt be model text
  | PullModel name insecure => pull_model rt be name insecure
  | DeleteModel name => delete_model rt be name
  end.

(** The first [except] clause of the called tool. *)
Definition tool_http_reply (be : Backend) (c : tool_call) : string -> string :=
  match c with
  | ListModels => request_failed_hint be
  | _ => request_failed
  end.

(** ** A runtime and a backend for closed examples

    [mini_json_loads] decodes the part of JSON the examples use: objects,
    arrays, strings with the single-character escapes, integers, [true],
    [false] and [null]; a document outside that part (fractions,
    exponents, unicode escapes) is refused.  As [json.loads] does, it
    refuses text after the document and keeps the last value of a
    repeated key. *)

(** The double quote. *)
Definition quote : ascii := ascii_of_nat 34.

(** The examples write an apostrophe where the wire has a double quote. *)
Fixpoint wire (s : string) : string :=
  match s with
  | EmptyString => EmptyString
  | String c r => String (if Ascii.eqb c "'" then quote else c) (wire r)
  end.

Definition is_json_ws (c : ascii) : bool :=
  let n := nat_of_ascii c in
  Nat.eqb n 32 || Nat.eqb n 9 || Nat.eqb n 10 || Nat.eqb n 13.

Fixpoint skip_ws (s : string) : string :=
  match s with
  | EmptyString => EmptyString
  | String c r => if is_json_ws c then skip_ws r else s
  end.

Definition unescape (c : ascii) : option ascii :=
  if Ascii.eqb c quote then Some quote
  else if Ascii.eqb c "\" then Some "\"%char
  else if Ascii.eqb c "/" then Some "/"%char
  else if Ascii.eqb c "b" then Some (ascii_of_nat 8)
  else if Ascii.eqb c "f" then Some (ascii_of_nat 12)
  else if Ascii.eqb c "n" then Some (ascii_of_nat 10)
  else if Ascii.eqb c "r" then Some (ascii_of_nat 13)
  else if Ascii.eqb c "t" then Some (ascii_of_nat 9)
  else None.

(** The characters of a string literal after its opening quote. *)
Fixpoint parse_chars (s : string) : option (string * string) :=
  match s with
  | EmptyString => None
  | String c r =>
      if Ascii.eqb c quote then Some (EmptyString, r)
      else if Ascii.eqb c "\" then
        match r with
        | EmptyString => None
        | String e r' =>
            match unescape e, parse_chars r' with
            | Some ch, Some (t, rest) => Some (String ch t, rest)
            | _, _ => None
            end
        end
      else if Nat.ltb (nat_of_ascii c) 32 then None
      else
        match parse_chars r with
        | Some (t, rest) => Some (String c t, rest)
        | None => None
        end
  end.

Definition digit_of (c : ascii) : option Z :=
  let n := nat_of_ascii c in
  if (Nat.leb 48 n && Nat.leb n 57)%bool then Some (Z.of_nat (n - 48)) else None.

Fixpoint parse_digits (s : string) (value : Z) : Z * string :=
  match s with
  | EmptyString => (value, s)
  | String c r =>
      match digit_of c with
      | Some d => parse_digits r (10 * value + d)
      | None => (value, s)
      end
  end.

Definition starts_fraction (s : string) : bool :=
  match s with
  | String c _ => Ascii.eqb c "." || Ascii.eqb c "e" || Ascii.eqb c "E"
  | EmptyString => false
  end.

(** An integer literal without its sign. *)
Definition parse_natural (s : string) : option (Z * string) :=
  match s with
  | EmptyString => None
  | String c r =>
      match digit_of c with
      | None => None
      | Some d =>
          let '(value, rest) := if Z.eqb d 0 then (0%Z, r) else parse_digits r d in
          if starts_fraction rest then None
          else match rest with
               | String c' _ => match digit_of c' with
                                | Some _ => None
                                | None => Some (value, rest)
                                end
               | EmptyString => Some (value, rest)
               end
      end
  end.

Fixpoint strip_prefix (p s : string) : option string :=
  match p, s with
  | EmptyString, _ => Some s
  | String a p', String b s' => if Ascii.eqb a b then strip_prefix p' s' else None
  | _, _ => None
  end.

Fixpoint parse_value (fuel : nat) (s : string) {struct fuel} : option (json * string) :=
  match fuel with
  | O => None
  | S n =>
      match skip_ws s with
      | EmptyString => None
      | String c r as s' =>
          if Ascii.eqb c "{" then
            match skip_ws r with
            | String "}" r' => Some (JObj [], r')
            | r' => parse_members n r' []
            end
          else if Ascii.eqb c "[" then
            match skip_ws r with
            | String "]" r' => Some (JArr [], r')
            | r' => parse_items n r' []
            end
          else if Ascii.eqb c quote then
            match parse_chars r with
            | Some (t, rest) => Some (JStr t, rest)
            | None => None
            end
          else if Ascii.eqb c "-" then
            match parse_natural r with
            | Some (z, rest) => Some (JInt (- z), rest)
            | None => None
            end
          else
            match strip_prefix "true" s', strip_prefix "false" s', strip_prefix "null" s' with
            | Some rest, _, _ => Some (JBool true, rest)
            | _, Some rest, _ => Some (JBool false, rest)
            | _, _, Some rest => Some (JNull, rest)
            | _, _, _ =>
                match parse_natural s' with
                | Some (z, rest) => Some (JInt z, rest)
                | None => None
                end
            end
      end
  end
with parse_members (fuel : nat) (s : string) (done : pydict) {struct fuel}
    : option (json * string) :=
  match fuel with
  | O => None
  | S n =>
      match s with
      | String c r =>
          match (if Ascii.eqb c quote then parse_chars r else None) with
          | None => None
          | Some (k, after_key) =>
              match skip_ws after_key with
              | String ":" after_colon =>
                  match parse_value n after_colon with
                  | None => None
                  | Some (v, after_value) =>
                      match skip_ws after_value with
                      | String "," more => parse_members n (skip_ws more) (dict_set k v done)
                      | String "}" rest => Some (JObj (dict_set k v done), rest)
                      | _ => None
                      end
                  end
              | _ => None
              end
          end
      | EmptyString => None
      end
  end
with parse_items (fuel : nat) (s : string) (done : list json) {struct fuel}
    : option (json * string) :=
  match fuel with
  | O => None
  | S n =>
      match parse_value n s with
      | None => None
      | Some (v, after_value) =>
          match skip_ws after_value with
          | String "," more => parse_items n more (done ++ [v])%list
          | String "]" rest => Some (JArr (done ++ [v])%list, rest)
          | _ => None
          end
      end
  end.

Definition mini_json_loads (s : string) : result json :=
  match parse_value (S (String.length s)) s with
  | Some (v, rest) =>
      if is_empty (skip_ws rest) then Ok v else Err (JSONDecodeError s)
  | None => Err (JSONDecodeError s)
  end.

Definition test_exn_str (e : exn) : string :=
  match e with
  | HTTPStatusError _ _ => "HTTP status error"
  | TransportError detail => detail
  | JSONDecodeError _ => "invalid JSON"
  | AttributeError _ attr => "object has no attribute '" ++ attr ++ "'"
  | TypeError operation _ => "unsupported operand for " ++ operation
  | KeyError key => "'" ++ key ++ "'"
  | OtherException detail => detail
  end.

Definition test_repr (v : json) : string :=
  match v with
  | JNull => "None"
  | JBool true => "True"
  | JBool false => "False"
  | JStr s => "'" ++ s ++ "'"
  | _ => "<value>"
  end.

(** The fields the examples do not look at are fixed strings. *)
Definition test_runtime : Runtime := {|
  json_loads := mini_json_loads;
  json_dumps := fun _ => "<json>";
  json_dumps_indent2 := fun _ => "<json>";
  exn_str := test_exn_str;
  py_repr := test_repr;
  format_mb := fun _ => Ok "0"
|}.

(** A backend that answers every request the same way, as the mocked
    client of the unit tests does. *)
Definition mock_backend (unary : outcome) (streamed : stream_outcome) : Backend := {|
  OLLAMA_BASE := "http://test-ollama:11434";
  send := fun _ => unary;
  send_stream := fun _ => streamed
|}.

Definition mock_stream (lines : list string) : stream_outcome :=
  StreamOpened {| stream_status := 200; stream_lines := lines; stream_drop := None |}.

Definition mock_dropped (lines : list string) (e : exn) : stream_outcome :=
  StreamOpened {| stream_status := 200; stream_lines := lines; stream_drop := Some e |}.

(** The lines of the streaming unit tests, with blank lines added to the
    first body and a line that is not JSON to the third. *)
Definition generate_lines : list string :=
  [ wire "{'model':'m','response':'Hello','done':false}";
    "";
    wire "{'model':'m','response':' world','done':false}";
    "   ";
    wire "{'model':'m','response':'!','done':true}" ].

Definition generate_fragments : list pydict :=
  [ [("model", JStr "m"); ("response", JStr "Hello"); ("done", JBool false)];
    [("model", JStr "m"); ("response", JStr " world"); ("done", JBool false)];
    [("model", JStr "m"); ("response", JStr "!"); ("done", JBool true)] ].

Definition thinking_lines : list string :=
  [ wire "{'model':'m','thinking':'Hmm','response':'','done':false}";
    wire "{'model':'m','response':'Yes.','done':true}" ].

Definition thinking_fragments : list pydict :=
  [ [("model", JStr "m"); ("thinking", JStr "Hmm"); ("response", JStr "");
     ("done", JBool false)];
    [("model", JStr "m"); ("response", JStr "Yes."); ("done", JBool true)] ].

Definition chat_lines : list string :=
  [ wire "{'model':'m','message':{'content':'Hi','role':'assistant'},'done':false}";
    "keepalive";
    wire "{'model':'m','message':{'content':' there','role':'assistant'},'done':true}" ].

(** A fragment with reasoning text in both places. *)
Definition both_reasonings : pydict :=
  [ ("message", JObj [("thinking", JStr "nested"); ("content", JStr "a")]);
    ("thinking", JStr "top");
    ("content", JStr "b") ].

(** The answer of a mocked backend on the side an example does not use. *)
Definition unused : outcome := Refused (TransportError "unused").

(** ** The specification's reading of a fragment

    These definitions follow the words of the specification, not the code:
    they say which field of a decoded fragment is its primary content,
    which is its reasoning text, and what the final string is.  The
    theorems below compare [_request_stream] with them. *)

(** The primary-content field: nested under [message] when [message] is
    an object that has the key, at the top level otherwise. *)
Definition spec_content_field (key : string) (o : pydict) : option json :=
  match lookup "message" o with
  | Some (JObj m) =>
      match lookup key m with
      | Some v => Some v
      | None => lookup key o
      end
  | _ => lookup key o
  end.

Definition nonempty_field (k : string) (d : pydict) : option json :=
  match lookup k d with
  | Some v => if truthy v then Some v else None
  | None => None
  end.

(** The reasoning field: the nested one when it is present and non-empty,
    else the top-level one when it is present and non-empty. *)
Definition spec_reasoning_field (o : pydict) : option json :=
  match lookup "message" o with
  | Some (JObj m) =>
      match nonempty_field "thinking" m with
      | Some v => Some v
      | None => nonempty_field "thinking" o
      end
  | _ => nonempty_field "thinking" o
  end.

(** What one fragment appends to the content buffer: the value of its
    primary-content field, the empty string in place of [null]. *)
Definition spec_content_appended (key : string) (o : pydict) : list json :=
  match spec_content_field key o with
  | Some v => [py_or v (JStr "")]
  | None => []
  end.

(** What one fragment appends to the reasoning buffer. *)
Definition spec_reasoning_appended (o : pydict) : list json :=
  match spec_reasoning_field o with
  | Some v => [v]
  | None => []
  end.

(** The text of a field value: the empty string for [null]. *)
Definition spec_text (v : json) : string :=
  match v with
  | JStr s => s
  | _ => ""
  end.

Definition pieces (field : pydict -> option json) (fragments : list pydict) : list string :=
  flat_map (fun o => match field o with
                     | Some v => [spec_text v]
                     | None => []
                     end) fragments.

(** What each fragment contributes to the content, in order; a fragment
    without the field contributes nothing. *)
Definition spec_content_pieces (key : string) (fragments : list pydict) : list string :=
  pieces (spec_content_field key) fragments.

Definition spec_content (key : string) (fragments : list pydict) : string :=
  String.concat "" (spec_content_pieces key fragments).

Definition spec_reasoning_pieces (fragments : list pydict) : list string :=
  pieces spec_reasoning_field fragments.

(** The labelled reasoning block, empty when no fragment contributed. *)
Definition spec_reasoning_block (fragments : list pydict) : string :=
  match spec_reasoning_pieces fragments with
  | [] => ""
  | parts => "[Thinking] " ++ strip (String.concat " " parts) ++ nl ++ nl
  end.

(** A field that holds text holds a string or [null]. *)
Definition text_or_null (v : json) : bool :=
  match v with
  | JStr _ | JNull => true
  | _ => false
  end.

Definition field_is_text (k : string) (d : pydict) : bool :=
  match lookup k d with
  | Some v => text_or_null v
  | None => true
  end.

(** A fragment of the backend's protocol: its content and reasoning
    fields, nested or not, hold text. *)
Definition well_typed_fragment (key : string) (o : pydict) : bool :=
  field_is_text key o && field_is_text "thinking" o &&
  match lookup "message" o with
  | Some (JObj m) => field_is_text key m && field_is_text "thinking" m
  | _ => true
  end.

(** ** Streams and calls the statements speak of *)

(** [carries rt lines fragments]: [lines] is a body of valid NDJSON, made
    of blank lines and of lines that decode to the objects [fragments],
    in that order. *)
Inductive carries (rt : Runtime) : list string -> list pydict -> Prop :=
| carries_nil : carries rt [] []
| carries_blank line lines fragments :
    strip line = "" ->
    carries rt lines fragments ->
    carries rt (line :: lines) fragments
| carries_fragment line o lines fragments :
    strip line <> "" ->
    json_loads rt (strip line) = Ok (JObj o) ->
    carries rt lines fragments ->
    carries rt (line :: lines) (o :: fragments).

(** A line that is not blank and that the decoder refuses as not JSON. *)
Definition malformed (rt : Runtime) (line : string) : bool :=
  negb (is_empty (strip line)) &&
  match json_loads rt (strip line) with
  | Err e => is_JSONDecodeError e
  | Ok _ => false
  end.

(** The same backend with the malformed lines taken out of every stream. *)
Definition without_malformed (rt : Runtime) (be : Backend) : Backend := {|
  OLLAMA_BASE := OLLAMA_BASE be;
  send := send be;
  send_stream := fun r =>
    match send_stream be r with
    | StreamRefused e => StreamRefused e
    | StreamOpened s =>
        StreamOpened {| stream_status := stream_status s;
                        stream_lines := filter (fun l => negb (malformed rt l)) (stream_lines s);
                        stream_drop := stream_drop s |}
    end
|}.

(** The request [_request_stream] opens. *)
Definition stream_request (be : Backend) (path : string) (payload : pydict) : request :=
  {| req_method := "POST";
     req_url := _api_url be path;
     req_json := Some (JObj (dict_set "stream" (JBool true) payload)) |}.

(** The stream a call opens, for the calls that stream. *)
Definition streaming_request (be : Backend) (c : tool_call) : option request :=
  match c with
  | Chat model messages true =>
      Some (stream_request be "chat"
              [("model", JStr model); ("messages", messages_json messages)])
  | Generate model prompt system true =>
      Some (stream_request be "generate" (generate_payload model prompt system))
  | _ => None
  end.

(** The object a chat response keeps its content and reasoning in: the
    [message] object, or an empty one when [message] is absent or [null]. *)
Definition spec_message (data : pydict) : option pydict :=
  match lookup "message" data with
  | Some (JObj m) => Some m
  | Some JNull | None => Some []
  | Some _ => None
  end.

(** What the backend sends for a pull when the request does not turn
    streaming off: one status object per line. *)
Definition pull_lines : list string :=
  [ wire "{'status':'pulling manifest'}"; wire "{'status':'success'}" ].

Definition pull_body : string :=
  wire "{'status':'pulling manifest'}" ++ nl ++ wire "{'status':'success'}" ++ nl.

(** The failure strings of a tool: ["<Backend> request failed: <detail>"]
    for a transport or HTTP failure, ["Error: <detail>"] for any other. *)
Definition spec_failure_reply (rt : Runtime) (http_reply : string -> string)
    (e : exn) : string :=
  if is_HTTPError e then http_reply (exn_str rt e) else "Error: " ++ exn_str rt e.

(** The text of a field of an object: empty when missing or [null]. *)
Definition spec_field_text (key : string) (fields : pydict) : string :=
  match lookup key fields with
  | Some v => spec_text v
  | None => ""
  end.

(** The reply of a call that does not stream, from the object that holds
    the content ([key]) and the [thinking] field. *)
Definition spec_unary_reply (key : string) (fields : pydict) : string :=
  let content := spec_field_text key fields in
  match lookup "thinking" fields with
  | Some (JStr t) =>
      if is_empty t then content else "[Thinking] " ++ t ++ nl ++ nl ++ content
  | _ => content
  end.

(** ** The request of each call *)

(** Whether a call opens a stream. *)
Definition streams (c : tool_call) : bool :=
  match c with
  | Chat _ _ stream => stream
  | Generate _ _ _ stream => stream
  | _ => false
  end.

(** The request [_request] sends. *)
Definition unary_request (be : Backend) (method path : string)
    (payload : option json) : request :=
  {| req_method := method; req_url := _api_url be path; req_json := payload |}.

(** The one request a call sends: [client.stream] for the calls that
    stream, [client.request] for the others. *)
Definition request_of (be : Backend) (c : tool_call) : request :=
  match c with
  | ListModels => unary_request be "GET" "tags" None
  | ListRunningModels => unary_request be "GET" "ps" None
  | ShowModel model =>
      unary_request be "POST" "show" (Some (JObj [("name", JStr model)]))
  | Chat model messages true =>
      stream_request be "chat"
        [("model", JStr model); ("messages", messages_json messages)]
  | Chat model messages false =>
      unary_request be "POST" "chat" (Some (JObj (chat_payload model messages)))
  | Generate model prompt system true =>
      stream_request be "generate" (generate_payload model prompt system)
  | Generate model prompt system false =>
      unary_request be "POST" "generate"
        (Some (JObj (dict_set "stream" (JBool false)
                       (generate_payload model prompt system))))
  | Embed model text =>
      unary_request be "POST" "embed"
        (Some (JObj [("model", JStr model);
                     ("input", JArr match text with
                                    | inl t => [JStr t]
                                    | inr ts => map JStr ts
                                    end)]))
  | PullModel name insecure =>
      unary_request be "POST" "pull"
        (Some (JObj (if insecure
                     then dict_set "insecure" (JBool true) [("name", JStr name)]
                     else [("name", JStr name)])))
  | DeleteModel name =>
      unary_request be "DELETE" "delete" (Some (JObj [("name", JStr name)]))
  end.


(** The calls whose [try] block reads fields of the decoded response with
    [get]; [show_model] and [delete_model] do not. *)
Definition reads_fields (c : tool_call) : bool :=
  match c with
  | ShowModel _ | DeleteModel _ => false
  | _ => negb (streams c)
  end.

(** ** The lines of the two listings *)

(** [m.get("name", "?")] as the f-string shows it. *)
Definition name_shown (rt : Runtime) (m : pydict) : string :=
  match lookup "name" m with
  | Some v => py_str rt v
  | None => "?"
  end.

Definition running_line (rt : Runtime) (m : pydict) : string :=
  "- " ++ name_shown rt m.

(** The line of [list_models] for a model whose size in MB, when it has
    one, is rendered as [mb]. *)
Definition model_line (rt : Runtime) (entry : pydict * string) : string :=
  "- " ++ name_shown rt (fst entry) ++ " ("
    ++ (if truthy (dict_get (fst entry) "size") then snd entry ++ " MB" else "?")
    ++ ")".

(** [mb] is what the size of [m] is rendered as; no rendering is asked for
    a model without a size. *)
Definition size_rendered (rt : Runtime) (m : pydict) (mb : string) : Prop :=
  truthy (dict_get m "size") = true -> format_mb rt (dict_get m "size") = Ok mb.

(** [isinstance(v, str)] *)
Definition is_str (v : json) : bool :=
  match v with
  | JStr _ => true
  | _ => false
  end.

(** ** The integration script

    [send_request] once the line has been read from the server's output:
    [raw] is [None] when there is no pipe or the read timed out. *)
Definition decode_reply (rt : Runtime) (raw : option string) : result (option json) :=
  match raw with
  | None => Ok None                                   (* if raw is None: return None *)
  | Some raw =>
      let raw := strip raw in
      if is_empty raw then Ok None                    (* if not raw: return None *)
      else
        match json_loads rt raw with
        | Ok v => Ok (Some v)
        | Err e =>
            if is_JSONDecodeError e then
              Ok (Some (JObj [("error",
                               JObj [("message",
                                      JStr ("Invalid JSON: " ++ substring 0 200 raw))])]))
            else Err e
        end
  end.

(** [expected] of the [tools/list] step. *)
Definition expected_tools : list string :=
  [ "list_models"; "list_running_models"; "show_model"; "chat"; "generate";
    "embed"; "pull_model"; "delete_model" ].

(** [missing = expected - set(names)] *)
Definition missing (names : list string) : list string :=
  filter (fun e => negb (existsb (String.eqb e) names)) expected_tools.

(** * Properties *)

(** ** Values and strings *)

Lemma is_empty_true (s : string) : is_empty s = true <-> s = "".
Proof. destruct s; simpl; split; congruence. Qed.

Lemma is_empty_false (s : string) : is_empty s = false <-> s <> "".
Proof. destruct s; simpl; split; congruence. Qed.

Lemma py_or_dict (m : pydict) : py_or (JObj m) (JObj []) = JObj m.
Proof. unfold py_or. destruct m; reflexivity. Qed.

Lemma py_or_text (v : json) :
  text_or_null v = true -> py_or v (JStr "") = JStr (spec_text v).
Proof.
  destruct v as [| | | |s| |]; simpl; try discriminate; intros _.
  - reflexivity.
  - unfold py_or. simpl. destruct s; reflexivity.
Qed.

Lemma truthy_text (v : json) :
  text_or_null v = true -> truthy v = true -> v = JStr (spec_text v) /\ spec_text v <> "".
Proof.
  destruct v as [| | | |s| |]; simpl; try discriminate; intros _ H.
  split; [reflexivity|]. apply is_empty_false. destruct (is_empty s); [discriminate|reflexivity].
Qed.

Lemma py_join_strings (sep : string) (l : list string) :
  py_join sep (map JStr l) = Ok (String.concat sep l).
Proof.
  induction l as [|s l IH]; [reflexivity|].
  destruct l as [|s' l']; [reflexivity|].
  change (py_join sep (map JStr (s :: s' :: l')))
    with (rest <- py_join sep (map JStr (s' :: l')) ;; Ok (s ++ sep ++ rest)).
  rewrite IH. reflexivity.
Qed.

(** ** One fragment *)

Lemma nonempty_field_get (k : string) (d : pydict) :
  truthy (dict_get d k) = match nonempty_field k d with Some _ => true | None => false end.
Proof.
  unfold dict_get, nonempty_field. destruct (lookup k d) as [v|]; [|reflexivity].
  destruct (truthy v); reflexivity.
Qed.

Lemma nonempty_field_item (k : string) (d : pydict) (v : json) :
  nonempty_field k d = Some v -> py_getitem (JObj d) k = Ok v.
Proof.
  unfold nonempty_field, py_getitem. destruct (lookup k d) as [x|]; [|discriminate].
  destruct (truthy x); congruence.
Qed.

(** A [message] that is not a dict leads both tests on [msg] to fail. *)
Lemma message_not_dict (v : json) (k : string) :
  is_dict v = false ->
  truthy (dict_and_get (py_or v (JObj [])) k) = false
  /\ dict_and_in (py_or v (JObj [])) k = false.
Proof.
  intros H. unfold py_or.
  destruct (truthy v) eqn:E; destruct v; simpl in *; try discriminate; auto.
Qed.

(** The [if]/[elif] on the reasoning fields, for a top-level dict [c]. *)
Lemma thinking_branch (c : pydict) (msg : json) (buffer : list json) :
  msg = py_or (dict_get c "message") (JObj []) ->
  (if truthy (dict_and_get msg "thinking") then
     v <- py_getitem msg "thinking" ;; Ok (buffer ++ [v])%list
   else if truthy (dict_get c "thinking") then
     v <- py_getitem (JObj c) "thinking" ;; Ok (buffer ++ [v])%list
   else Ok buffer)
  = Ok (buffer ++ spec_reasoning_appended c)%list.
Proof.
  intros ->. unfold spec_reasoning_appended, spec_reasoning_field.
  assert (Htop :
    (if truthy (dict_get c "thinking") then
       v <- py_getitem (JObj c) "thinking" ;; Ok (buffer ++ [v])%list
     else Ok buffer)
    = Ok (buffer ++ match nonempty_field "thinking" c with
                    | Some v => [v] | None => [] end)%list).
  { rewrite nonempty_field_get.
    destruct (nonempty_field "thinking" c) as [v|] eqn:E.
    - rewrite (nonempty_field_item _ _ _ E). reflexivity.
    - now rewrite app_nil_r. }
  destruct (lookup "message" c) as [v|] eqn:Emsg.
  - destruct (is_dict v) eqn:Edict.
    + destruct v as [| | | | | |m]; try discriminate.
      unfold dict_get at 1 2. rewrite Emsg, py_or_dict.
      change (dict_and_get (JObj m) "thinking") with (dict_get m "thinking").
      rewrite nonempty_field_get.
      destruct (nonempty_field "thinking" m) as [x|] eqn:E.
      * rewrite (nonempty_field_item _ _ _ E). reflexivity.
      * exact Htop.
    + unfold dict_get at 1 2. rewrite Emsg.
      rewrite (proj1 (message_not_dict v "thinking" Edict)).
      rewrite Htop. destruct v; try reflexivity; discriminate.
  - unfold dict_get at 1 2. rewrite Emsg.
    rewrite (proj1 (message_not_dict JNull "thinking" eq_refl)). exact Htop.
Qed.

(** The [if]/[elif] on the content fields. *)
Lemma content_branch (key : string) (c : pydict) (msg : json) (buffer : list json) :
  msg = py_or (dict_get c "message") (JObj []) ->
  (if dict_and_in msg key then
     v <- py_getitem msg key ;; Ok (buffer ++ [py_or v (JStr "")])%list
   else if contains key c then
     v <- py_getitem (JObj c) key ;; Ok (buffer ++ [py_or v (JStr "")])%list
   else Ok buffer)
  = Ok (buffer ++ spec_content_appended key c)%list.
Proof.
  intros ->. unfold spec_content_appended, spec_content_field.
  assert (Htop :
    (if contains key c then
       v <- py_getitem (JObj c) key ;; Ok (buffer ++ [py_or v (JStr "")])%list
     else Ok buffer)
    = Ok (buffer ++ match lookup key c with
                    | Some v => [py_or v (JStr "")] | None => [] end)%list).
  { unfold contains, py_getitem. destruct (lookup key c); [reflexivity|].
    now rewrite app_nil_r. }
  destruct (lookup "message" c) as [v|] eqn:Emsg.
  - destruct (is_dict v) eqn:Edict.
    + destruct v as [| | | | | |m]; try discriminate.
      unfold dict_get. rewrite Emsg, py_or_dict.
      unfold dict_and_in, contains, py_getitem.
      destruct (lookup key m); [reflexivity|]. exact Htop.
    + unfold dict_get. rewrite Emsg.
      rewrite (proj2 (message_not_dict v key Edict)).
      rewrite Htop. destruct v; try reflexivity; discriminate.
  - unfold dict_get. rewrite Emsg.
    rewrite (proj2 (message_not_dict JNull key eq_refl)). exact Htop.
Qed.

(** A fragment that is an object never raises: it appends to each buffer
    what the specification says. *)
Lemma process_chunk_object (key : string) (o : pydict) (st : acc) :
  process_chunk key (JObj o) st
  = Ok {| content_parts := (content_parts st ++ spec_content_appended key o)%list;
          thinking_parts := (thinking_parts st ++ spec_reasoning_appended o)%list |}.
Proof.
  unfold process_chunk.
  rewrite (thinking_branch o _ (thinking_parts st) eq_refl).
  cbn [bind].
  rewrite (content_branch key o _ (content_parts st) eq_refl).
  reflexivity.
Qed.

(** ** The loop *)

Lemma process_line_blank (rt : Runtime) (key line : string) (st : acc) :
  strip line = "" -> process_line rt key line st = Ok st.
Proof. intros H. unfold process_line. rewrite H. reflexivity. Qed.

Lemma process_line_malformed (rt : Runtime) (key line : string) (st : acc) :
  malformed rt line = true -> process_line rt key line st = Ok st.
Proof.
  unfold malformed, process_line. intros H.
  apply andb_true_iff in H as [_ H].
  destruct (is_empty (strip line)); [reflexivity|].
  destruct (json_loads rt (strip line)); [discriminate|].
  rewrite H. reflexivity.
Qed.

Lemma process_line_fragment (rt : Runtime) (key line : string) (chunk : json) (st : acc) :
  strip line <> "" ->
  json_loads rt (strip line) = Ok chunk ->
  process_line rt key line st = process_chunk key chunk st.
Proof.
  intros Hne Hdec. unfold process_line.
  apply is_empty_false in Hne. rewrite Hne, Hdec. reflexivity.
Qed.

(** Over a body of valid NDJSON the loop ends normally, and each buffer
    holds what the fragments append, in the order of the lines. *)
Lemma consume_carries (rt : Runtime) (key : string) (lines : list string)
    (fragments : list pydict) :
  carries rt lines fragments ->
  forall st,
    consume rt key lines st
    = Ok {| content_parts :=
              (content_parts st ++ flat_map (spec_content_appended key) fragments)%list;
            thinking_parts :=
              (thinking_parts st ++ flat_map spec_reasoning_appended fragments)%list |}.
Proof.
  induction 1 as [| line lines frs Hblank _ IH | line o lines frs Hne Hdec _ IH];
    intros st; simpl.
  - rewrite !app_nil_r. destruct st; reflexivity.
  - rewrite (process_line_blank _ _ _ _ Hblank). simpl. apply IH.
  - rewrite (process_line_fragment _ _ _ _ _ Hne Hdec), process_chunk_object.
    simpl. rewrite IH. simpl. rewrite <- !app_assoc. reflexivity.
Qed.

(** Taking the malformed lines out changes nothing. *)
Lemma consume_filter (rt : Runtime) (key : string) (lines : list string) (st : acc) :
  consume rt key lines st
  = consume rt key (filter (fun l => negb (malformed rt l)) lines) st.
Proof.
  revert st. induction lines as [|l lines IH]; intros st; [reflexivity|].
  simpl. destruct (malformed rt l) eqn:E; simpl.
  - rewrite (process_line_malformed _ _ _ _ E). simpl. apply IH.
  - destruct (process_line rt key l st); simpl; [apply IH | reflexivity].
Qed.

(** ** Fragments of the protocol *)

Lemma content_field_text (key : string) (o : pydict) (v : json) :
  well_typed_fragment key o = true ->
  spec_content_field key o = Some v -> text_or_null v = true.
Proof.
  unfold well_typed_fragment, spec_content_field, field_is_text.
  intros H. apply andb_true_iff in H as [H Hm]. apply andb_true_iff in H as [Hk _].
  destruct (lookup "message" o) as [[| | | | | |m]|];
    try (intros E; rewrite E in Hk; exact Hk).
  apply andb_true_iff in Hm as [Hmk _].
  destruct (lookup key m) as [x|].
  - intros E. injection E as <-. exact Hmk.
  - intros E. rewrite E in Hk. exact Hk.
Qed.

Lemma nonempty_field_text (k : string) (d : pydict) (v : json) :
  field_is_text k d = true ->
  nonempty_field k d = Some v -> text_or_null v = true /\ truthy v = true.
Proof.
  unfold field_is_text, nonempty_field. destruct (lookup k d) as [x|]; [|discriminate].
  intros Ht. destruct (truthy x) eqn:E; [|discriminate].
  intros H. injection H as <-. auto.
Qed.

Lemma reasoning_field_text (key : string) (o : pydict) (v : json) :
  well_typed_fragment key o = true ->
  spec_reasoning_field o = Some v -> text_or_null v = true /\ truthy v = true.
Proof.
  unfold well_typed_fragment, spec_reasoning_field.
  intros H. apply andb_true_iff in H as [H Hm]. apply andb_true_iff in H as [_ Ht].
  destruct (lookup "message" o) as [[| | | | | |m]|];
    try (apply nonempty_field_text; exact Ht).
  apply andb_true_iff in Hm as [_ Hmt].
  destruct (nonempty_field "thinking" m) as [x|] eqn:E.
  - intros H. injection H as <-. exact (nonempty_field_text _ _ _ Hmt E).
  - apply nonempty_field_text; exact Ht.
Qed.

Lemma content_appended_text (key : string) (fragments : list pydict) :
  forallb (well_typed_fragment key) fragments = true ->
  flat_map (spec_content_appended key) fragments
  = map JStr (spec_content_pieces key fragments).
Proof.
  unfold spec_content_pieces, pieces.
  induction fragments as [|o frs IH]; [reflexivity|].
  simpl. intros H. apply andb_true_iff in H as [Ho Hfrs].
  rewrite map_app, (IH Hfrs). f_equal.
  unfold spec_content_appended.
  destruct (spec_content_field key o) as [v|] eqn:E; [|reflexivity].
  simpl. now rewrite (py_or_text v (content_field_text _ _ _ Ho E)).
Qed.

Lemma reasoning_appended_text (key : string) (fragments : list pydict) :
  forallb (well_typed_fragment key) fragments = true ->
  flat_map spec_reasoning_appended fragments
  = map JStr (spec_reasoning_pieces fragments).
Proof.
  unfold spec_reasoning_pieces, pieces.
  induction fragments as [|o frs IH]; [reflexivity|].
  simpl. intros H. apply andb_true_iff in H as [Ho Hfrs].
  rewrite map_app, (IH Hfrs). f_equal.
  unfold spec_reasoning_appended.
  destruct (spec_reasoning_field o) as [v|] eqn:E; [|reflexivity].
  simpl. destruct (reasoning_field_text _ _ _ Ho E) as [Ht Hv].
  now rewrite <- (proj1 (truthy_text v Ht Hv)).
Qed.

(** ** After the loop *)

Lemma append_assoc (a b c : string) : (a ++ b) ++ c = a ++ (b ++ c).
Proof. induction a as [|x a IH]; simpl; [reflexivity | now rewrite IH]. Qed.

Lemma append_empty_r (a : string) : a ++ "" = a.
Proof. induction a as [|x a IH]; simpl; [reflexivity | now rewrite IH]. Qed.

Lemma finish_text (contents reasonings : list string) :
  finish {| content_parts := map JStr contents; thinking_parts := map JStr reasonings |}
  = Ok (match reasonings with
        | [] => ""
        | _ => "[Thinking] " ++ strip (String.concat " " reasonings) ++ nl ++ nl
        end ++ String.concat "" contents).
Proof.
  unfold finish. cbn [content_parts thinking_parts].
  rewrite py_join_strings. cbn [bind].
  destruct reasonings as [|r rs]; [reflexivity|].
  change (map JStr (r :: rs)) with (JStr r :: map JStr rs) at 1.
  cbv iota. rewrite py_join_strings. cbn [bind].
  f_equal. rewrite !append_assoc. reflexivity.
Qed.

(** ** The stream as a whole *)

Lemma request_stream_opened (rt : Runtime) (be : Backend) (path : string)
    (payload : pydict) (key : string) (s : stream) :
  send_stream be (stream_request be path payload) = StreamOpened s ->
  is_success (stream_status s) = true ->
  _request_stream rt be path payload key
  = (st <- consume rt key (stream_lines s) acc_empty ;;
     match stream_drop s with
     | Some e => Err e
     | None => finish st
     end).
Proof.
  intros Hsend Hok. unfold _request_stream.
  change {| req_method := "POST"; req_url := _api_url be path;
            req_json := Some (JObj (dict_set "stream" (JBool true) payload)) |}
    with (stream_request be path payload).
  rewrite Hsend, Hok. reflexivity.
Qed.

Lemma request_stream_valid (rt : Runtime) (be : Backend) (path : string)
    (payload : pydict) (key : string) (s : stream) (fragments : list pydict) :
  send_stream be (stream_request be path payload) = StreamOpened s ->
  is_success (stream_status s) = true ->
  stream_drop s = None ->
  carries rt (stream_lines s) fragments ->
  forallb (well_typed_fragment key) fragments = true ->
  _request_stream rt be path payload key
  = Ok (spec_reasoning_block fragments ++ spec_content key fragments).
Proof.
  intros Hsend Hok Hdrop Hlines Htyped.
  rewrite (request_stream_opened _ _ _ _ _ _ Hsend Hok).
  rewrite (consume_carries _ _ _ _ Hlines). cbn [bind acc_empty content_parts thinking_parts app].
  rewrite Hdrop, (content_appended_text _ _ Htyped), (reasoning_appended_text _ _ Htyped).
  rewrite finish_text. unfold spec_reasoning_block, spec_content.
  destruct (spec_reasoning_pieces fragments); reflexivity.
Qed.

(** ** Claims about the stream accumulator *)

Ltac carry :=
  repeat first
    [ apply carries_nil
    | apply carries_blank; [reflexivity|]
    | apply carries_fragment;
      [ let H := fresh in intro H; vm_compute in H; discriminate H
      | vm_compute; reflexivity
      | ] ].

(** C1. For every body of valid NDJSON (blank lines and lines that decode
    to objects whose content and reasoning fields hold text), the loop
    ends with a content buffer that holds, in the order of the lines, the
    value of each fragment's primary-content field (the empty string for
    [null], nothing for a fragment without the field), and the string
    returned is the reasoning block followed by the concatenation of that
    buffer: no fragment is moved, merged or dropped. *)
Theorem stream_content_in_arrival_order (rt : Runtime) (be : Backend)
    (path : string) (payload : pydict) (key : string) (s : stream)
    (fragments : list pydict) :
  send_stream be (stream_request be path payload) = StreamOpened s ->
  is_success (stream_status s) = true ->
  stream_drop s = None ->
  carries rt (stream_lines s) fragments ->
  forallb (well_typed_fragment key) fragments = true ->
  (exists st,
      consume rt key (stream_lines s) acc_empty = Ok st
      /\ content_parts st = map JStr (spec_content_pieces key fragments))
  /\ _request_stream rt be path payload key
     = Ok (spec_reasoning_block fragments
           ++ String.concat "" (spec_content_pieces key fragments)).
Proof.
  intros Hsend Hok Hdrop Hlines Htyped. split.
  - eexists. split; [apply (consume_carries _ _ _ _ Hlines)|].
    cbn [content_parts acc_empty app]. apply (content_appended_text _ _ Htyped).
  - apply (request_stream_valid _ _ _ _ _ _ _ Hsend Hok Hdrop Hlines Htyped).
Qed.

Lemma stream_content_in_arrival_order_witness :
  _request_stream test_runtime (mock_backend unused (mock_stream generate_lines))
    "generate" [("model", JStr "m"); ("prompt", JStr "Hi")] "response"
  = Ok "Hello world!".
Proof.
  refine (proj2 (stream_content_in_arrival_order test_runtime
                   (mock_backend unused (mock_stream generate_lines))
                   "generate" [("model", JStr "m"); ("prompt", JStr "Hi")] "response"
                   {| stream_status := 200; stream_lines := generate_lines;
                      stream_drop := None |}
                   generate_fragments eq_refl eq_refl eq_refl _ eq_refl)).
  unfold generate_lines, generate_fragments. cbn [stream_lines]. carry.
Defined.

Lemma reasoning_pieces_nil (fragments : list pydict) :
  spec_reasoning_pieces fragments = []
  <-> Forall (fun o => spec_reasoning_field o = None) fragments.
Proof.
  unfold spec_reasoning_pieces, pieces.
  induction fragments as [|o frs IH]; simpl.
  - split; auto.
  - destruct (spec_reasoning_field o) as [v|] eqn:E; simpl; split; intros H.
    + discriminate.
    + inversion H; subst. congruence.
    + constructor; [exact E | now apply IH].
    + inversion H; subst. now apply IH.
Qed.

Lemma reasoning_appended_once (o : pydict) :
  (List.length (spec_reasoning_appended o) <= 1)%nat.
Proof. unfold spec_reasoning_appended. destruct (spec_reasoning_field o); simpl; lia. Qed.

Lemma reasoning_nested_first (o m : pydict) (nested : json) :
  lookup "message" o = Some (JObj m) ->
  lookup "thinking" m = Some nested ->
  truthy nested = true ->
  spec_reasoning_appended o = [nested].
Proof.
  intros Hm Hn Ht. unfold spec_reasoning_appended, spec_reasoning_field, nonempty_field.
  rewrite Hm, Hn, Ht. reflexivity.
Qed.

(** C2. Over a body of valid NDJSON the string returned is the content
    alone when no fragment contributed non-empty reasoning text, and
    otherwise ["[Thinking] "], the contributed texts joined by spaces and
    trimmed, a blank line, then the content; no fragment contributed
    exactly when the list of contributed texts is empty.  One fragment
    appends at most one element to the reasoning buffer, and when both the
    nested and the top-level field are present and non-empty it appends
    the nested one only. *)
Theorem reasoning_block_exactly_when_contributed (rt : Runtime) (be : Backend)
    (path : string) (payload : pydict) (key : string) (s : stream)
    (fragments : list pydict) :
  send_stream be (stream_request be path payload) = StreamOpened s ->
  is_success (stream_status s) = true ->
  stream_drop s = None ->
  carries rt (stream_lines s) fragments ->
  forallb (well_typed_fragment key) fragments = true ->
  _request_stream rt be path payload key
  = Ok (match spec_reasoning_pieces fragments with
        | [] => spec_content key fragments
        | parts => "[Thinking] " ++ strip (String.concat " " parts) ++ nl ++ nl
                   ++ spec_content key fragments
        end)
  /\ (spec_reasoning_pieces fragments = []
      <-> Forall (fun o => spec_reasoning_field o = None) fragments)
  /\ (forall o st, exists st' added,
         process_chunk key (JObj o) st = Ok st'
         /\ thinking_parts st' = (thinking_parts st ++ added)%list
         /\ (List.length added <= 1)%nat
         /\ (forall m nested top,
                lookup "message" o = Some (JObj m) ->
                lookup "thinking" m = Some nested -> truthy nested = true ->
                lookup "thinking" o = Some top -> truthy top = true ->
                added = [nested])).
Proof.
  intros Hsend Hok Hdrop Hlines Htyped. split; [|split].
  - rewrite (request_stream_valid _ _ _ _ _ _ _ Hsend Hok Hdrop Hlines Htyped).
    unfold spec_reasoning_block.
    destruct (spec_reasoning_pieces fragments); [reflexivity|].
    now rewrite !append_assoc.
  - apply reasoning_pieces_nil.
  - intros o st. eexists. exists (spec_reasoning_appended o).
    split; [apply process_chunk_object|].
    split; [reflexivity|]. split; [apply reasoning_appended_once|].
    intros m nested top Hm Hn Ht _ _. exact (reasoning_nested_first _ _ _ Hm Hn Ht).
Qed.

Lemma reasoning_block_exactly_when_contributed_witness :
  _request_stream test_runtime (mock_backend unused (mock_stream thinking_lines))
    "generate" [("model", JStr "m"); ("prompt", JStr "?")] "response"
  = Ok ("[Thinking] Hmm" ++ nl ++ nl ++ "Yes.").
Proof.
  refine (proj1 (reasoning_block_exactly_when_contributed test_runtime
                   (mock_backend unused (mock_stream thinking_lines))
                   "generate" [("model", JStr "m"); ("prompt", JStr "?")] "response"
                   {| stream_status := 200; stream_lines := thinking_lines;
                      stream_drop := None |}
                   thinking_fragments eq_refl eq_refl eq_refl _ eq_refl)).
  unfold thinking_lines, thinking_fragments. cbn [stream_lines]. carry.
Defined.

(** C4. A line that is not blank and does not decode leaves the buffers
    as they are and raises nothing; the lines after it are consumed as if
    it were not there, and a stream returns what the same stream without
    its malformed lines returns. *)
Theorem malformed_lines_are_skipped (rt : Runtime) (key : string) :
  (forall line st,
      malformed rt line = true -> process_line rt key line st = Ok st)
  /\ (forall before bad after st,
         malformed rt bad = true ->
         consume rt key (before ++ bad :: after) st
         = consume rt key (before ++ after) st)
  /\ (forall be path payload,
         _request_stream rt be path payload key
         = _request_stream rt (without_malformed rt be) path payload key).
Proof.
  split; [|split].
  - intros line st H. exact (process_line_malformed _ _ _ _ H).
  - intros before bad after st H.
    rewrite (consume_filter rt key (before ++ bad :: after)).
    rewrite (consume_filter rt key (before ++ after)).
    rewrite !filter_app. simpl. rewrite H. reflexivity.
  - intros be path payload. unfold _request_stream.
    change (_api_url (without_malformed rt be) path) with (_api_url be path).
    cbn [send_stream without_malformed].
    destruct (send_stream be _) as [e|s]; [reflexivity|].
    cbn [stream_status stream_lines stream_drop].
    destruct (is_success (stream_status s)); [|reflexivity].
    rewrite <- consume_filter. reflexivity.
Qed.

Lemma malformed_lines_are_skipped_witness :
  _request_stream test_runtime (mock_backend unused (mock_stream chat_lines))
    "chat" [("model", JStr "m")] "content"
  = Ok "Hi there".
Proof.
  exact (eq_trans
           (proj2 (proj2 (malformed_lines_are_skipped test_runtime "content"))
              (mock_backend unused (mock_stream chat_lines)) "chat" [("model", JStr "m")])
           eq_refl).
Defined.

(** C10. For a fragment that is an object: when [message] is an object
    that has the content key, the nested value is what is appended and
    the top-level key plays no part; the top-level key is looked at only
    when [message] is absent, [null], not an object or without the key;
    and whatever [message] holds, the fragment raises nothing. *)
Theorem content_lookup_precedence (key : string) (o : pydict) (st : acc) :
  (forall m v,
      lookup "message" o = Some (JObj m) -> lookup key m = Some v ->
      exists thinking,
        process_chunk key (JObj o) st
        = Ok {| content_parts := (content_parts st ++ [py_or v (JStr "")])%list;
                thinking_parts := thinking |})
  /\ ((forall m, lookup "message" o = Some (JObj m) -> lookup key m = None) ->
      exists thinking,
        process_chunk key (JObj o) st
        = Ok {| content_parts :=
                  (content_parts st ++ match lookup key o with
                                       | Some v => [py_or v (JStr "")]
                                       | None => []
                                       end)%list;
                thinking_parts := thinking |})
  /\ (exists st', process_chunk key (JObj o) st = Ok st').
Proof.
  rewrite process_chunk_object. unfold spec_content_appended, spec_content_field.
  split; [|split].
  - intros m v Hm Hv. rewrite Hm, Hv. eexists. reflexivity.
  - intros H. eexists. f_equal. f_equal. f_equal.
    destruct (lookup "message" o) as [[| | | | | |m]|]; try reflexivity.
    now rewrite (H m eq_refl).
  - eexists. reflexivity.
Qed.

Lemma content_lookup_precedence_witness :
  exists thinking,
    process_chunk "content" (JObj both_reasonings) acc_empty
    = Ok {| content_parts := [JStr "a"]; thinking_parts := thinking |}.
Proof.
  exact (proj1 (content_lookup_precedence "content" both_reasonings acc_empty)
           [("thinking", JStr "nested"); ("content", JStr "a")] (JStr "a")
           eq_refl eq_refl).
Defined.

(** ** Failures *)

Lemma except_clauses_err (rt : Runtime) (http_reply : string -> string) (e : exn) :
  except_clauses rt http_reply (Err e) = Ok (JStr (spec_failure_reply rt http_reply e)).
Proof.
  unfold except_clauses, spec_failure_reply. destruct (is_HTTPError e); reflexivity.
Qed.

Lemma call_tool_boundary (rt : Runtime) (be : Backend) (c : tool_call) :
  call_tool rt be c = except_clauses rt (tool_http_reply be c) (tool_try rt be c).
Proof. destruct c; reflexivity. Qed.

Lemma request_refused (rt : Runtime) (be : Backend) (method path : string)
    (payload : option json) (e : exn) :
  (forall r, send be r = Refused e) -> _request rt be method path payload = Err e.
Proof. intros H. unfold _request. rewrite H. reflexivity. Qed.

Lemma request_status (rt : Runtime) (be : Backend) (method path : string)
    (payload : option json) (status : Z) (content : string) :
  (forall r, send be r = Response status content) ->
  is_success status = false ->
  _request rt be method path payload = Err (HTTPStatusError status (Some content)).
Proof. intros H Hs. unfold _request. rewrite H, Hs. reflexivity. Qed.

Lemma request_stream_refused (rt : Runtime) (be : Backend) (path : string)
    (payload : pydict) (key : string) (e : exn) :
  (forall r, send_stream be r = StreamRefused e) ->
  _request_stream rt be path payload key = Err e.
Proof. intros H. unfold _request_stream. rewrite H. reflexivity. Qed.

Lemma request_stream_status (rt : Runtime) (be : Backend) (path : string)
    (payload : pydict) (key : string) (s : stream) :
  (forall r, send_stream be r = StreamOpened s) ->
  is_success (stream_status s) = false ->
  _request_stream rt be path payload key = Err (HTTPStatusError (stream_status s) None).
Proof. intros H Hs. unfold _request_stream. rewrite H, Hs. reflexivity. Qed.

Lemma request_stream_dropped (rt : Runtime) (be : Backend) (path : string)
    (payload : pydict) (key : string) (s : stream) (e : exn) :
  send_stream be (stream_request be path payload) = StreamOpened s ->
  stream_drop s = Some e ->
  (exists e', _request_stream rt be path payload key = Err e')
  /\ (is_success (stream_status s) = true ->
      forall fragments, carries rt (stream_lines s) fragments ->
      _request_stream rt be path payload key = Err e).
Proof.
  intros Hsend Hdrop. split.
  - destruct (is_success (stream_status s)) eqn:Hok.
    + rewrite (request_stream_opened _ _ _ _ _ _ Hsend Hok), Hdrop.
      destruct (consume rt key (stream_lines s) acc_empty); simpl; eauto.
    + unfold _request_stream.
      change {| req_method := "POST"; req_url := _api_url be path;
                req_json := Some (JObj (dict_set "stream" (JBool true) payload)) |}
        with (stream_request be path payload).
      rewrite Hsend, Hok. eauto.
  - intros Hok fragments Hlines.
    rewrite (request_stream_opened _ _ _ _ _ _ Hsend Hok), Hdrop.
    rewrite (consume_carries _ _ _ _ Hlines). reflexivity.
Qed.

(** C3. When the connection drops after some lines of a streaming chat or
    generate call have been read, the call fails: the [try] block raises,
    and the tool returns the failure string of the exception, not a
    string built from the lines already read.  When those lines were
    valid NDJSON the exception is the one the drop raised, so the string
    returned depends on the drop alone. *)
Theorem mid_stream_failure_discards_partial (rt : Runtime) (be : Backend)
    (call : tool_call) (req : request) (s : stream) (e : exn) :
  streaming_request be call = Some req ->
  send_stream be req = StreamOpened s ->
  stream_drop s = Some e ->
  (exists e',
      tool_try rt be call = Err e'
      /\ call_tool rt be call = Ok (JStr (spec_failure_reply rt request_failed e')))
  /\ (is_success (stream_status s) = true ->
      forall fragments, carries rt (stream_lines s) fragments ->
      tool_try rt be call = Err e
      /\ call_tool rt be call = Ok (JStr (spec_failure_reply rt request_failed e))).
Proof.
  intros Hreq Hsend Hdrop.
  assert (Hraise : forall path payload key x,
             req = stream_request be path payload ->
             tool_try rt be call
             = (out <- _request_stream rt be path payload key ;; Ok (JStr out)) ->
             tool_http_reply be call = request_failed ->
             _request_stream rt be path payload key = Err x ->
             tool_try rt be call = Err x
             /\ call_tool rt be call = Ok (JStr (spec_failure_reply rt request_failed x))).
  { intros path payload key x _ Htry Hreply Hx.
    rewrite call_tool_boundary, Hreply, Htry, Hx. split; [reflexivity|].
    apply except_clauses_err. }
  destruct call as [| | |model messages [|]|model prompt system [|]| | |];
    try discriminate Hreq; injection Hreq as Hreq; symmetry in Hreq.
  - rewrite Hreq in Hsend.
    destruct (request_stream_dropped rt _ _ _ "content" s e Hsend Hdrop)
      as [[e' He'] Hvalid].
    split.
    + exists e'. exact (Hraise _ _ "content" e' Hreq eq_refl eq_refl He').
    + intros Hok frs Hlines.
      exact (Hraise _ _ "content" e Hreq eq_refl eq_refl (Hvalid Hok frs Hlines)).
  - rewrite Hreq in Hsend.
    destruct (request_stream_dropped rt _ _ _ "response" s e Hsend Hdrop)
      as [[e' He'] Hvalid].
    split.
    + exists e'. exact (Hraise _ _ "response" e' Hreq eq_refl eq_refl He').
    + intros Hok frs Hlines.
      exact (Hraise _ _ "response" e Hreq eq_refl eq_refl (Hvalid Hok frs Hlines)).
Qed.

Lemma mid_stream_failure_discards_partial_witness :
  call_tool test_runtime
    (mock_backend unused (mock_dropped generate_lines (TransportError "peer closed connection")))
    (Generate "m" "Hi" None true)
  = Ok (JStr "Ollama request failed: peer closed connection").
Proof.
  refine (proj2 (proj2 (mid_stream_failure_discards_partial test_runtime
                          (mock_backend unused
                             (mock_dropped generate_lines
                                (TransportError "peer closed connection")))
                          (Generate "m" "Hi" None true) _
                          {| stream_status := 200; stream_lines := generate_lines;
                             stream_drop := Some (TransportError "peer closed connection") |}
                          (TransportError "peer closed connection")
                          eq_refl eq_refl eq_refl)
                   eq_refl generate_fragments _)).
  unfold generate_lines, generate_fragments. cbn [stream_lines]. carry.
Defined.

(** ** Claims about the unary executor and the tools *)

(** C6. A unary request whose response has a status outside 200..299
    raises [HTTPStatusError] with that status and the body; with a status
    inside it and a body that is not empty it returns the value the body
    decodes to, whatever its kind; with an empty body it returns an empty
    object. *)
Theorem request_contract (rt : Runtime) (be : Backend) (method path : string)
    (payload : option json) (status : Z) (content : string) :
  send be {| req_method := method; req_url := _api_url be path; req_json := payload |}
  = Response status content ->
  (is_success status = false ->
   _request rt be method path payload = Err (HTTPStatusError status (Some content)))
  /\ (is_success status = true -> content <> "" ->
      forall v, json_loads rt content = Ok v ->
      _request rt be method path payload = Ok v)
  /\ (is_success status = true -> content = "" ->
      _request rt be method path payload = Ok (JObj [])).
Proof.
  intros Hsend. unfold _request. rewrite Hsend. split; [|split].
  - intros ->. reflexivity.
  - intros -> Hne v Hv. apply is_empty_false in Hne. rewrite Hne, Hv. reflexivity.
  - intros -> ->. reflexivity.
Qed.

Lemma request_contract_witness :
  _request test_runtime
    (mock_backend (Response 200 (wire "{'response': 'Generated text.'}")) (mock_stream []))
    "POST" "generate" None
  = Ok (JObj [("response", JStr "Generated text.")])
  /\ _request test_runtime (mock_backend (Response 404 "model not found") (mock_stream []))
       "POST" "show" None
     = Err (HTTPStatusError 404 (Some "model not found"))
  /\ _request test_runtime (mock_backend (Response 200 "") (mock_stream []))
       "DELETE" "delete" None
     = Ok (JObj []).
Proof.
  split; [|split].
  - refine (proj1 (proj2 (request_contract test_runtime
                            (mock_backend
                               (Response 200 (wire "{'response': 'Generated text.'}"))
                               (mock_stream []))
                            "POST" "generate" None 200
                            (wire "{'response': 'Generated text.'}") eq_refl))
              eq_refl _ _ eq_refl).
    intro H. vm_compute in H. discriminate H.
  - exact (proj1 (request_contract test_runtime
                    (mock_backend (Response 404 "model not found") (mock_stream []))
                    "POST" "show" None 404 "model not found" eq_refl) eq_refl).
  - exact (proj2 (proj2 (request_contract test_runtime
                           (mock_backend (Response 200 "") (mock_stream []))
                           "DELETE" "delete" None 200 "" eq_refl)) eq_refl eq_refl).
Defined.

(** The statements of [chat] and [generate] after the request, on the
    object that holds the fields. *)
Lemma unary_reply_text (rt : Runtime) (key : string) (d : pydict) :
  field_is_text key d = true ->
  field_is_text "thinking" d = true ->
  (c <- py_get (JObj d) key ;;
   t <- py_get (JObj d) "thinking" ;;
   if truthy t then
     t' <- py_get (JObj d) "thinking" ;;
     Ok (JStr ("[Thinking] " ++ py_str rt t' ++ nl ++ nl
               ++ py_str rt (py_or c (JStr ""))))
   else Ok (py_or c (JStr "")))
  = Ok (JStr (spec_unary_reply key d)).
Proof.
  unfold field_is_text, spec_unary_reply, spec_field_text, py_get, py_get_default.
  intros Hc Ht.
  destruct (lookup key d) as [c|]; cbn [bind].
  - rewrite (py_or_text c Hc).
    destruct (lookup "thinking" d) as [[| | | |t| |]|]; try discriminate Ht;
      try reflexivity.
    destruct t; reflexivity.
  - destruct (lookup "thinking" d) as [[| | | |t| |]|]; try discriminate Ht;
      try reflexivity.
    destruct t; reflexivity.
Qed.

(** C9. A chat call that does not stream returns, from the [message]
    object of the response, ["[Thinking] "], the thinking text, a blank
    line and the content when the thinking text is not empty, and the
    content alone (the empty string when it is missing or [null]) when
    the thinking text is absent, [null] or empty; a generate call that
    does not stream does the same from the top-level [thinking] and
    [response] fields. *)
Theorem unary_reasoning_prefix (rt : Runtime) (be : Backend) :
  (forall model messages data m,
      _request rt be "POST" "chat" (Some (JObj (chat_payload model messages)))
      = Ok (JObj data) ->
      spec_message data = Some m ->
      field_is_text "content" m = true ->
      field_is_text "thinking" m = true ->
      chat rt be model messages false = Ok (JStr (spec_unary_reply "content" m)))
  /\ (forall model prompt system data,
         _request rt be "POST" "generate"
           (Some (JObj (dict_set "stream" (JBool false)
                          (generate_payload model prompt system))))
         = Ok (JObj data) ->
         field_is_text "response" data = true ->
         field_is_text "thinking" data = true ->
         generate rt be model prompt system false
         = Ok (JStr (spec_unary_reply "response" data)))
  /\ (forall key fields t,
         lookup "thinking" fields = Some (JStr t) -> t <> "" ->
         spec_unary_reply key fields
         = "[Thinking] " ++ t ++ nl ++ nl ++ spec_field_text key fields)
  /\ (forall key fields,
         lookup "thinking" fields = None
         \/ lookup "thinking" fields = Some JNull
         \/ lookup "thinking" fields = Some (JStr "") ->
         spec_unary_reply key fields = spec_field_text key fields).
Proof.
  split; [|split; [|split]].
  - intros model messages data m Hreq Hmsg Hc Ht.
    unfold chat, chat_try. rewrite Hreq. cbn [bind].
    unfold spec_message in Hmsg. unfold py_get at 1, py_get_default at 1.
    destruct (lookup "message" data) as [[| | | | | |m']|];
      try discriminate Hmsg; injection Hmsg as <-; cbn [bind];
      rewrite ?py_or_dict;
      try change (py_or JNull (JObj [])) with (JObj []);
      rewrite (unary_reply_text rt "content" _ Hc Ht); reflexivity.
  - intros model prompt system data Hreq Hc Ht.
    unfold generate, generate_try. rewrite Hreq. cbn [bind].
    rewrite (unary_reply_text rt "response" data Hc Ht). reflexivity.
  - intros key fields t Ht Hne. unfold spec_unary_reply. rewrite Ht.
    apply is_empty_false in Hne. rewrite Hne. reflexivity.
  - intros key fields [H|[H|H]]; unfold spec_unary_reply; rewrite H; reflexivity.
Qed.

Lemma unary_reasoning_prefix_witness :
  chat test_runtime
    (mock_backend
       (Response 200
          (wire "{'message': {'role': 'assistant', 'content': 'Yes.', 'thinking': 'Brief thought.'}}"))
       (mock_stream []))
    "llama3.2" [[("role", "user"); ("content", "OK?")]] false
  = Ok (JStr ("[Thinking] Brief thought." ++ nl ++ nl ++ "Yes."))
  /\ generate test_runtime
       (mock_backend (Response 200 (wire "{'response': 'Generated text.'}")) (mock_stream []))
       "llama3.2" "Say hi" None false
     = Ok (JStr "Generated text.").
Proof.
  split.
  - exact (proj1 (unary_reasoning_prefix test_runtime
                    (mock_backend
                       (Response 200
                          (wire "{'message': {'role': 'assistant', 'content': 'Yes.', 'thinking': 'Brief thought.'}}"))
                       (mock_stream [])))
             "llama3.2" [[("role", "user"); ("content", "OK?")]]
             [("message", JObj [("role", JStr "assistant"); ("content", JStr "Yes.");
                                ("thinking", JStr "Brief thought.")])]
             [("role", JStr "assistant"); ("content", JStr "Yes.");
              ("thinking", JStr "Brief thought.")]
             eq_refl eq_refl eq_refl eq_refl).
  - exact (proj1 (proj2 (unary_reasoning_prefix test_runtime
                           (mock_backend
                              (Response 200 (wire "{'response': 'Generated text.'}"))
                              (mock_stream []))))
             "llama3.2" "Say hi" None [("response", JStr "Generated text.")]
             eq_refl eq_refl eq_refl).
Defined.

Lemma tool_try_refused (rt : Runtime) (be : Backend) (c : tool_call) (e : exn) :
  (forall r, send be r = Refused e) ->
  (forall r, send_stream be r = StreamRefused e) ->
  tool_try rt be c = Err e.
Proof.
  intros Hu Hs.
  destruct c as [| | |model messages [|]|model prompt system [|]| | |];
    cbn [tool_try];
    unfold list_models_try, list_running_models_try, show_model_try, chat_try,
      generate_try, embed_try, pull_model_try, delete_model_try;
    rewrite ?(request_refused rt be _ _ _ e Hu),
            ?(request_stream_refused rt be _ _ _ e Hs);
    reflexivity.
Qed.

Lemma tool_try_status (rt : Runtime) (be : Backend) (c : tool_call)
    (status : Z) (content : string) (s : stream) :
  (forall r, send be r = Response status content) ->
  (forall r, send_stream be r = StreamOpened s) ->
  stream_status s = status ->
  is_success status = false ->
  exists read, tool_try rt be c = Err (HTTPStatusError status read).
Proof.
  intros Hu Hs <- Hbad.
  destruct c as [| | |model messages [|]|model prompt system [|]| | |];
    cbn [tool_try];
    unfold list_models_try, list_running_models_try, show_model_try, chat_try,
      generate_try, embed_try, pull_model_try, delete_model_try;
    rewrite ?(request_status rt be _ _ _ _ _ Hu Hbad),
            ?(request_stream_status rt be _ _ _ _ Hs Hbad);
    eexists; reflexivity.
Qed.

(** C5. Every tool operation returns a value whatever happens: when its
    [try] block raises, the value is a string, ["Ollama request failed: "]
    followed by the detail (and, for [list_models], a hint) when the
    exception is a transport or HTTP failure, ["Error: "] followed by the
    detail for any other exception.  A refused connection and a status
    outside 200..299 both end in the first form. *)
Theorem tools_convert_every_failure (rt : Runtime) (be : Backend) (call : tool_call) :
  (exists v, call_tool rt be call = Ok v)
  /\ (forall e,
         tool_try rt be call = Err e ->
         call_tool rt be call
         = Ok (JStr (if is_HTTPError e
                     then tool_http_reply be call (exn_str rt e)
                     else "Error: " ++ exn_str rt e)))
  /\ (forall detail, exists hint,
         tool_http_reply be call detail = "Ollama request failed: " ++ detail ++ hint)
  /\ (forall e,
         (forall r, send be r = Refused e) ->
         (forall r, send_stream be r = StreamRefused e) ->
         is_HTTPError e = true ->
         call_tool rt be call = Ok (JStr (tool_http_reply be call (exn_str rt e))))
  /\ (forall status content s,
         (forall r, send be r = Response status content) ->
         (forall r, send_stream be r = StreamOpened s) ->
         stream_status s = status ->
         is_success status = false ->
         exists read,
           call_tool rt be call
           = Ok (JStr (tool_http_reply be call
                         (exn_str rt (HTTPStatusError status read))))).
Proof.
  rewrite call_tool_boundary. repeat split.
  - destruct (tool_try rt be call) as [v|e]; [exists v; reflexivity|].
    rewrite except_clauses_err. eexists; reflexivity.
  - intros e ->. apply except_clauses_err.
  - intros detail. destruct call; cbn [tool_http_reply];
      try (exists ""; unfold request_failed; now rewrite append_empty_r).
    eexists. unfold request_failed_hint. reflexivity.
  - intros e Hu Hs He. rewrite (tool_try_refused rt be call e Hu Hs).
    rewrite except_clauses_err. unfold spec_failure_reply. rewrite He. reflexivity.
  - intros status content s Hu Hs Hst Hbad.
    destruct (tool_try_status rt be call status content s Hu Hs Hst Hbad) as [read ->].
    exists read. apply except_clauses_err.
Qed.

Lemma tools_convert_every_failure_witness :
  call_tool test_runtime
    (mock_backend (Refused (TransportError "nope")) (StreamRefused (TransportError "nope")))
    ListModels
  = Ok (JStr "Ollama request failed: nope. Is Ollama running at http://test-ollama:11434?")
  /\ call_tool test_runtime
       (mock_backend (Response 200 "[1, 2]") (mock_stream []))
       ListModels
     = Ok (JStr "Error: object has no attribute 'get'").
Proof.
  split.
  - exact (proj1 (proj2 (proj2 (proj2
             (tools_convert_every_failure test_runtime
                (mock_backend (Refused (TransportError "nope"))
                   (StreamRefused (TransportError "nope")))
                ListModels))))
             (TransportError "nope") (fun _ => eq_refl) (fun _ => eq_refl) eq_refl).
  - exact (proj1 (proj2
             (tools_convert_every_failure test_runtime
                (mock_backend (Response 200 "[1, 2]") (mock_stream []))
                ListModels))
             (AttributeError (JArr [JInt 1; JInt 2]) "get") eq_refl).
Defined.

(** ** Where the code departs from the specification *)

(** C7. [pull_model] sends one unary request and reads its body as one
    JSON document: no stream is opened (two backends that differ only in
    what their streams carry get the same answer), a body of one status
    object per line is refused by the decoder and the tool returns an
    error string, and a body of one object is reported as
    ["Pull status: ..."]. *)
Theorem pull_model_reads_one_document :
  (forall rt be be' name insecure,
      OLLAMA_BASE be = OLLAMA_BASE be' ->
      (forall r, send be r = send be' r) ->
      pull_model rt be name insecure = pull_model rt be' name insecure)
  /\ pull_model test_runtime
       (mock_backend (Response 200 pull_body) (mock_stream pull_lines))
       "llama3.2" false
     = Ok (JStr "Error: invalid JSON")
  /\ pull_model test_runtime
       (mock_backend (Response 200 (wire "{'status':'success'}")) (mock_stream pull_lines))
       "llama3.2" false
     = Ok (JStr "Pull status: success. Check Ollama for progress.").
Proof.
  split; [|split]; try reflexivity.
  intros rt be be' name insecure Hbase Hsend.
  unfold pull_model, pull_model_try, _request, _api_url, OLLAMA_API.
  rewrite Hbase, Hsend. reflexivity.
Qed.

(** C8. The file registers eight tool operations; [copy_model] is not one
    of them.  The registered names are exactly the operations a call can
    name. *)
Theorem registered_tools_lack_copy_model :
  List.length registered_tools = 8%nat
  /\ ~ In "copy_model" registered_tools
  /\ (forall c, In (tool_name c) registered_tools)
  /\ (forall name, In name registered_tools -> exists c, tool_name c = name).
Proof.
  split; [reflexivity|]. split; [|split].
  - unfold registered_tools. simpl. intros H.
    repeat (destruct H as [H|H]; [discriminate H|]). exact H.
  - intros c. destruct c; simpl; tauto.
  - intros name H. unfold registered_tools in H. simpl in H.
    destruct H as [<-|[<-|[<-|[<-|[<-|[<-|[<-|[<-|[]]]]]]]]].
    + exists ListModels; reflexivity.
    + exists ListRunningModels; reflexivity.
    + exists (ShowModel ""); reflexivity.
    + exists (Chat "" [] false); reflexivity.
    + exists (Generate "" "" None false); reflexivity.
    + exists (Embed "" (inl "")); reflexivity.
    + exists (PullModel "" false); reflexivity.
    + exists (DeleteModel ""); reflexivity.
Qed.

(** ** Runs of the model

    The end-to-end examples of the specification, and what the code does
    with lines that are JSON but not fragments of the protocol. *)

Example generate_streaming_run :
  generate test_runtime
    (mock_backend unused
       (mock_stream [ wire "{'thinking':'Hmm','response':'','done':false}";
                      wire "{'response':'Yes.','done':true}" ]))
    "m" "?" None true
  = Ok (JStr ("[Thinking] Hmm" ++ nl ++ nl ++ "Yes.")).
Proof. reflexivity. Qed.

Example chat_streaming_run :
  chat test_runtime
    (mock_backend unused
       (mock_stream [ wire "{'message':{'content':'Hi'},'done':false}";
                      wire "{'message':{'content':' there'},'done':true}" ]))
    "m" [[("role", "user"); ("content", "Say hi")]] true
  = Ok (JStr "Hi there").
Proof. reflexivity. Qed.

Example list_models_empty_run :
  list_models test_runtime
    (mock_backend (Response 200 (wire "{'models': []}")) (mock_stream []))
  = Ok (JStr "No models installed. Use pull_model to pull a model (e.g. llama3.2).").
Proof. reflexivity. Qed.

Example status_before_streaming_run :
  chat test_runtime
    (mock_backend unused
       (StreamOpened {| stream_status := 500; stream_lines := chat_lines;
                        stream_drop := None |}))
    "m" [] true
  = Ok (JStr "Ollama request failed: HTTP status error").
Proof. reflexivity. Qed.

(** Both reasoning fields are non-empty: the nested one alone is kept. *)
Example both_reasonings_run :
  process_chunk "content" (JObj both_reasonings) acc_empty
  = Ok {| content_parts := [JStr "a"]; thinking_parts := [JStr "nested"] |}.
Proof. reflexivity. Qed.

(** A line that decodes to something other than an object has no [get]:
    the stream fails, the tool reports it. *)
Example line_not_an_object_run :
  generate test_runtime
    (mock_backend unused (mock_stream [ wire "{'response':'Hello'}"; "42" ]))
    "m" "?" None true
  = Ok (JStr "Error: object has no attribute 'get'").
Proof. reflexivity. Qed.

(** A content value that is neither text nor falsy reaches [str.join]. *)
Example content_not_text_run :
  _request_stream test_runtime
    (mock_backend unused (mock_stream [ wire "{'response':'Hello'}"; wire "{'response':5}" ]))
    "generate" [] "response"
  = Err (TypeError "join" (JInt 5)).
Proof. reflexivity. Qed.

(** The streaming path trims the joined reasoning text; the unary paths
    insert the [thinking] field as it is. *)
Example reasoning_spaces_run :
  generate test_runtime
    (mock_backend (Response 200 (wire "{'thinking':' Hmm ','response':'Yes.'}"))
       (mock_stream [ wire "{'thinking':' Hmm ','response':'Yes.'}" ]))
    "m" "?" None false
  = Ok (JStr ("[Thinking]  Hmm " ++ nl ++ nl ++ "Yes."))
  /\ generate test_runtime
       (mock_backend (Response 200 (wire "{'thinking':' Hmm ','response':'Yes.'}"))
          (mock_stream [ wire "{'thinking':' Hmm ','response':'Yes.'}" ]))
       "m" "?" None true
     = Ok (JStr ("[Thinking] Hmm" ++ nl ++ nl ++ "Yes.")).
Proof. split; reflexivity. Qed.

(** * Further properties of the code *)

(** ** URLs *)

Lemma rstrip_slash_keeps (s t : string) :
  t <> "" -> rstrip_slash t = t -> rstrip_slash (s ++ t) = s ++ t.
Proof.
  intros Hne Ht. induction s as [|c s IH]; [exact Ht|].
  simpl. rewrite IH. destruct (s ++ t) eqn:E; [exfalso|reflexivity].
  destruct s; simpl in E; [contradiction | discriminate].
Qed.

Lemma rstrip_slash_trailing (s : string) : rstrip_slash (s ++ "/") = rstrip_slash s.
Proof.
  induction s as [|c s IH]; [reflexivity|].
  simpl. rewrite IH. reflexivity.
Qed.

(** X1. The URL of a request is the base address without its trailing
    slashes, then [/api/], then the path without its leading slashes; one
    more slash at the end of the base or at the start of the path changes
    nothing. *)
Theorem api_url_normal_form (be : Backend) (path : string) :
  _api_url be path = rstrip_slash (OLLAMA_BASE be) ++ "/api/" ++ lstrip_slash path
  /\ _api_url be ("/" ++ path) = _api_url be path
  /\ (forall be', OLLAMA_BASE be' = OLLAMA_BASE be ++ "/" ->
      _api_url be' path = _api_url be path).
Proof.
  assert (H : forall b p,
             _api_url b p = rstrip_slash (OLLAMA_BASE b) ++ "/api/" ++ lstrip_slash p).
  { intros b p. unfold _api_url, OLLAMA_API.
    rewrite rstrip_slash_keeps by (discriminate || reflexivity).
    rewrite append_assoc. reflexivity. }
  split; [apply H|]. split.
  - rewrite !H. reflexivity.
  - intros be' Hbase. rewrite !H, Hbase, rstrip_slash_trailing. reflexivity.
Qed.

(** ** Payloads *)





Lemma generate_payload_stream (model prompt : string) (system : option string) :
  lookup "stream" (generate_payload model prompt system) = None.
Proof.
  unfold generate_payload. destruct system as [sys|]; [|reflexivity].
  destruct (is_empty sys); reflexivity.
Qed.


(** X4. [generate] puts the system prompt in the payload exactly when it
    is not empty: an empty system prompt gives the call made without
    one, and a non-empty one is sent after [model] and [prompt]. *)
Theorem generate_system_prompt (rt : Runtime) (be : Backend)
    (model prompt : string) (stream : bool) :
  generate rt be model prompt (Some "") stream = generate rt be model prompt None stream
  /\ (forall sys, sys <> "" ->
      generate_payload model prompt (Some sys)
      = [("model", JStr model); ("prompt", JStr prompt); ("system", JStr sys)])
  /\ generate_payload model prompt None
     = [("model", JStr model); ("prompt", JStr prompt)].
Proof.
  split; [reflexivity|]. split; [|reflexivity].
  intros sys Hne. unfold generate_payload.
  apply is_empty_false in Hne. rewrite Hne. reflexivity.
Qed.

(** ** One request per call *)

Lemma api_url_base (be be' : Backend) (path : string) :
  OLLAMA_BASE be = OLLAMA_BASE be' -> _api_url be path = _api_url be' path.
Proof. intros H. unfold _api_url, OLLAMA_API. rewrite H. reflexivity. Qed.

Lemma request_same_answer (rt : Runtime) (be be' : Backend) (method path : string)
    (payload : option json) :
  OLLAMA_BASE be = OLLAMA_BASE be' ->
  send be (unary_request be method path payload)
  = send be' (unary_request be method path payload) ->
  _request rt be method path payload = _request rt be' method path payload.
Proof.
  intros Hbase Hsend. unfold _request.
  rewrite <- (api_url_base be be' path Hbase).
  change {| req_method := method; req_url := _api_url be path; req_json := payload |}
    with (unary_request be method path payload).
  rewrite Hsend. reflexivity.
Qed.

Lemma request_stream_same_answer (rt : Runtime) (be be' : Backend) (path : string)
    (payload : pydict) (key : string) :
  OLLAMA_BASE be = OLLAMA_BASE be' ->
  send_stream be (stream_request be path payload)
  = send_stream be' (stream_request be path payload) ->
  _request_stream rt be path payload key = _request_stream rt be' path payload key.
Proof.
  intros Hbase Hsend. unfold _request_stream.
  rewrite <- (api_url_base be be' path Hbase).
  change {| req_method := "POST"; req_url := _api_url be path;
            req_json := Some (JObj (dict_set "stream" (JBool true) payload)) |}
    with (stream_request be path payload).
  rewrite Hsend. reflexivity.
Qed.

(** X5. A tool call reaches the backend through one request only,
    [request_of]: GET [tags] and [ps] for the two listings, DELETE
    [delete] for [delete_model], POST for the others.  Two backends at the
    same address that answer that request alike (on [client.stream] for a
    streaming call, on [client.request] otherwise) get the same result,
    whatever they would answer to anything else. *)
Theorem one_request_per_call (rt : Runtime) (be be' : Backend) (c : tool_call) :
  OLLAMA_BASE be = OLLAMA_BASE be' ->
  (if streams c
   then send_stream be (request_of be c) = send_stream be' (request_of be c)
   else send be (request_of be c) = send be' (request_of be c)) ->
  call_tool rt be c = call_tool rt be' c.
Proof.
  intros Hbase Hsend. rewrite !call_tool_boundary.
  assert (Hreply : tool_http_reply be c = tool_http_reply be' c).
  { destruct c; try reflexivity. cbn [tool_http_reply].
    unfold request_failed_hint. rewrite Hbase. reflexivity. }
  rewrite Hreply. f_equal.
  destruct c as [| | |model messages [|]|model prompt system [|]|model text
                |name [|]|]; cbn [streams request_of] in Hsend; cbn [tool_try];
    unfold list_models_try, list_running_models_try, show_model_try, chat_try,
      generate_try, embed_try, pull_model_try, delete_model_try;
    cbv zeta;
    rewrite ?(request_same_answer rt be be' _ _ _ Hbase Hsend),
            ?(request_stream_same_answer rt be be' _ _ _ Hbase Hsend);
    reflexivity.
Qed.

Lemma one_request_per_call_witness :
  call_tool test_runtime
    (mock_backend (Response 200 (wire "{'models': []}")) (mock_stream chat_lines))
    ListModels
  = call_tool test_runtime
      (mock_backend (Response 200 (wire "{'models': []}")) (StreamRefused (KeyError "x")))
      ListModels.
Proof.
  exact (one_request_per_call test_runtime
           (mock_backend (Response 200 (wire "{'models': []}")) (mock_stream chat_lines))
           (mock_backend (Response 200 (wire "{'models': []}"))
              (StreamRefused (KeyError "x")))
           ListModels eq_refl eq_refl).
Defined.

(** ** Embeddings *)

(** [embed] called with one string sends what it sends for the list
    that holds that string alone, and so returns the same. *)
Lemma embed_single_string_is_singleton (rt : Runtime) (be : Backend)
    (model text : string) :
  request_of be (Embed model (inl text)) = request_of be (Embed model (inr [text]))
  /\ embed rt be model (inl text) = embed rt be model (inr [text]).
Proof. split; reflexivity. Qed.

(** X6. When the response is an object, the [count] that [embed] reports
    is the number of embeddings it reports: the length of the
    [embeddings] list, and zero with an empty list when the key is
    missing or [null]. *)
Theorem embed_count_matches (rt : Runtime) (be : Backend) (model : string)
    (text : string + list string) (data : pydict) :
  _request rt be "POST" "embed" (req_json (request_of be (Embed model text)))
  = Ok (JObj data) ->
  (forall l,
      lookup "embeddings" data = Some (JArr l) ->
      embed rt be model text
      = Ok (JStr (json_dumps rt
                    (JObj [("embeddings", JArr l);
                           ("count", JInt (Z.of_nat (List.length l)))]))))
  /\ (lookup "embeddings" data = None \/ lookup "embeddings" data = Some JNull ->
      embed rt be model text
      = Ok (JStr (json_dumps rt (JObj [("embeddings", JArr []); ("count", JInt 0)])))).
Proof.
  intros Hreq. cbn [request_of unary_request req_json] in Hreq.
  unfold embed, embed_try. cbv zeta. rewrite Hreq. cbn [bind].
  unfold py_get, py_get_default. split.
  - intros l Hl. rewrite Hl. cbn [bind].
    replace (py_or (JArr l) (JArr [])) with (JArr l)
      by (unfold py_or; destruct l; reflexivity).
    reflexivity.
  - intros [H|H]; rewrite H; reflexivity.
Qed.

Lemma embed_count_matches_witness :
  embed test_runtime
    (mock_backend (Response 200 (wire "{'embeddings': [[1, 2], [3]]}")) (mock_stream []))
    "nomic-embed-text" (inr ["a"; "b"])
  = Ok (JStr "<json>").
Proof.
  exact (proj1 (embed_count_matches test_runtime
                  (mock_backend (Response 200 (wire "{'embeddings': [[1, 2], [3]]}"))
                     (mock_stream []))
                  "nomic-embed-text" (inr ["a"; "b"])
                  [("embeddings", JArr [JArr [JInt 1; JInt 2]; JArr [JInt 3]])]
                  eq_refl)
           [JArr [JInt 1; JInt 2]; JArr [JInt 3]] eq_refl).
Defined.

(** ** Listings *)

Lemma running_lines_objects (rt : Runtime) (models : list pydict) :
  running_lines rt (map JObj models)
  = Ok (map JStr (map (running_line rt) models)).
Proof.
  induction models as [|m models IH]; [reflexivity|].
  cbn [map running_lines]. unfold py_get_default at 1.
  rewrite IH. unfold running_line at 2, name_shown.
  destruct (lookup "name" m); reflexivity.
Qed.

Lemma list_models_lines_objects (rt : Runtime) (entries : list (pydict * string)) :
  Forall (fun e => size_rendered rt (fst e) (snd e)) entries ->
  list_models_lines rt (map (fun e => JObj (fst e)) entries)
  = Ok (map JStr (map (model_line rt) entries)).
Proof.
  induction 1 as [|[m mb] entries Hm _ IH]; [reflexivity|].
  cbn [map list_models_lines fst]. rewrite IH.
  unfold size_rendered in Hm. cbn [fst snd] in Hm.
  unfold py_get_default at 1, py_get, py_get_default.
  unfold model_line at 2, name_shown. cbn [fst snd]. unfold dict_get in *.
  destruct (lookup "name" m); cbn [bind];
    destruct (lookup "size" m) as [size|]; cbn [bind];
    try (destruct (truthy size); [rewrite (Hm eq_refl)|]); reflexivity.
Qed.

(** X7. When the response of [ps] is an object whose [models] is a
    non-empty list of objects, [list_running_models] returns one line per
    model, in the order of the list, ["- "] followed by the name; a model
    without a [name] key is shown as [?]. *)
Theorem running_models_listing (rt : Runtime) (be : Backend) (data : pydict)
    (models : list pydict) :
  _request rt be "GET" "ps" None = Ok (JObj data) ->
  lookup "models" data = Some (JArr (map JObj models)) ->
  models <> [] ->
  list_running_models rt be
  = Ok (JStr (String.concat nl (map (running_line rt) models)))
  /\ (forall m, lookup "name" m = None -> running_line rt m = "- ?").
Proof.
  intros Hreq Hmodels Hne. split; [|intros m H; unfold running_line, name_shown;
                                    rewrite H; reflexivity].
  unfold list_running_models, list_running_models_try. rewrite Hreq. cbn [bind].
  unfold py_get, py_get_default. rewrite Hmodels. cbn [bind].
  destruct models as [|m models]; [contradiction|].
  change (py_or (JArr (map JObj (m :: models))) (JArr []))
    with (JArr (map JObj (m :: models))).
  change (negb (truthy (JArr (map JObj (m :: models))))) with false. cbv iota.
  cbn [py_iter bind]. rewrite running_lines_objects. cbn [bind].
  rewrite py_join_strings. reflexivity.
Qed.

Lemma running_models_listing_witness :
  list_running_models test_runtime
    (mock_backend (Response 200 (wire "{'models': [{'name': 'llama3.2'}, {'size': 5}]}"))
       (mock_stream []))
  = Ok (JStr ("- llama3.2" ++ nl ++ "- ?")).
Proof.
  refine (proj1 (running_models_listing test_runtime
                   (mock_backend
                      (Response 200 (wire "{'models': [{'name': 'llama3.2'}, {'size': 5}]}"))
                      (mock_stream []))
                   [("models", JArr [JObj [("name", JStr "llama3.2")];
                                     JObj [("size", JInt 5)]])]
                   [[("name", JStr "llama3.2")]; [("size", JInt 5)]]
                   eq_refl eq_refl _)).
  discriminate.
Defined.

(** X8. When the response of [tags] is an object whose [models] is a
    non-empty list of objects, [list_models] returns one line per model,
    in the order of the list: ["- name (N MB)"] with [N] the rendering of
    the size, and [(?)] for a model whose size is missing, [null] or
    zero. *)
Theorem models_listing (rt : Runtime) (be : Backend) (data : pydict)
    (entries : list (pydict * string)) :
  _request rt be "GET" "tags" None = Ok (JObj data) ->
  lookup "models" data = Some (JArr (map (fun e => JObj (fst e)) entries)) ->
  entries <> [] ->
  Forall (fun e => size_rendered rt (fst e) (snd e)) entries ->
  list_models rt be = Ok (JStr (String.concat nl (map (model_line rt) entries)))
  /\ (forall m mb, truthy (dict_get m "size") = false ->
      model_line rt (m, mb) = "- " ++ name_shown rt m ++ " (?)").
Proof.
  intros Hreq Hmodels Hne Hsizes. split;
    [|intros m mb H; unfold model_line; cbn [fst snd]; rewrite H; reflexivity].
  unfold list_models, list_models_try. rewrite Hreq. cbn [bind].
  unfold py_get, py_get_default. rewrite Hmodels. cbn [bind].
  destruct entries as [|e entries]; [contradiction|].
  change (py_or (JArr (map (fun e => JObj (fst e)) (e :: entries))) (JArr []))
    with (JArr (map (fun e => JObj (fst e)) (e :: entries))).
  change (negb (truthy (JArr (map (fun e => JObj (fst e)) (e :: entries)))))
    with false. cbv iota.
  cbn [py_iter bind]. rewrite (list_models_lines_objects rt _ Hsizes). cbn [bind].
  rewrite py_join_strings. reflexivity.
Qed.

Lemma models_listing_witness :
  list_models test_runtime
    (mock_backend
       (Response 200 (wire "{'models': [{'name': 'llama3.2', 'size': 5}, {'name': 'gemma3', 'size': null}]}"))
       (mock_stream []))
  = Ok (JStr ("- llama3.2 (0 MB)" ++ nl ++ "- gemma3 (?)")).
Proof.
  refine (proj1 (models_listing test_runtime
                   (mock_backend
                      (Response 200 (wire "{'models': [{'name': 'llama3.2', 'size': 5}, {'name': 'gemma3', 'size': null}]}"))
                      (mock_stream []))
                   [("models", JArr [JObj [("name", JStr "llama3.2"); ("size", JInt 5)];
                                     JObj [("name", JStr "gemma3"); ("size", JNull)]])]
                   [([("name", JStr "llama3.2"); ("size", JInt 5)], "0");
                    ([("name", JStr "gemma3"); ("size", JNull)], "")]
                   eq_refl eq_refl _ _)).
  - discriminate.
  - constructor; [intros _; reflexivity|].
    constructor; [intros H; discriminate H|]. constructor.
Defined.

Lemma get_on_non_dict (v : json) (k : string) (default : json) :
  is_dict v = false -> py_get_default v k default = Err (AttributeError v "get").
Proof. destruct v; try reflexivity; discriminate. Qed.

Lemma list_models_lines_stop (rt : Runtime) (before : list (pydict * string))
    (v : json) (after : list json) :
  Forall (fun e => size_rendered rt (fst e) (snd e)) before ->
  is_dict v = false ->
  list_models_lines rt (map (fun e => JObj (fst e)) before ++ v :: after)%list
  = Err (AttributeError v "get").
Proof.
  intros Hsizes Hv. induction Hsizes as [|[m mb] before Hm _ IH].
  - cbn [map app list_models_lines]. rewrite (get_on_non_dict v _ _ Hv). reflexivity.
  - cbn [map app list_models_lines fst]. rewrite IH.
    unfold size_rendered in Hm. cbn [fst snd] in Hm.
    unfold py_get_default at 1, py_get, py_get_default. unfold dict_get in Hm.
    destruct (lookup "name" m); cbn [bind];
      destruct (lookup "size" m) as [size|]; cbn [bind];
      try (destruct (truthy size); [rewrite (Hm eq_refl)|]); reflexivity.
Qed.

(** X9. One entry of [models] that is not an object makes [list_models]
    fail as a whole: the result is the error string of the [get] that the
    entry does not have, and holds no line of the models listed before
    it. *)
Theorem models_listing_all_or_nothing (rt : Runtime) (be : Backend) (data : pydict)
    (before : list (pydict * string)) (v : json) (after : list json) :
  _request rt be "GET" "tags" None = Ok (JObj data) ->
  lookup "models" data
  = Some (JArr (map (fun e => JObj (fst e)) before ++ v :: after)%list) ->
  Forall (fun e => size_rendered rt (fst e) (snd e)) before ->
  is_dict v = false ->
  list_models rt be = Ok (JStr ("Error: " ++ exn_str rt (AttributeError v "get"))).
Proof.
  intros Hreq Hmodels Hsizes Hv.
  unfold list_models, list_models_try. rewrite Hreq. cbn [bind].
  unfold py_get, py_get_default. rewrite Hmodels. cbn [bind].
  assert (Hor : forall l : list json, l <> [] ->
                  py_or (JArr l) (JArr []) = JArr l /\ truthy (JArr l) = true).
  { intros [|x l] H; [contradiction|]. split; reflexivity. }
  destruct (Hor (map (fun e => JObj (fst e)) before ++ v :: after)%list
              (fun H => app_cons_not_nil _ _ _ (eq_sym H))) as [-> ->].
  cbn [negb py_iter bind]. rewrite (list_models_lines_stop rt _ _ _ Hsizes Hv).
  reflexivity.
Qed.

Lemma models_listing_all_or_nothing_witness :
  list_models test_runtime
    (mock_backend
       (Response 200 (wire "{'models': [{'name': 'llama3.2'}, 'gemma3']}"))
       (mock_stream []))
  = Ok (JStr "Error: object has no attribute 'get'").
Proof.
  refine (models_listing_all_or_nothing test_runtime
            (mock_backend
               (Response 200 (wire "{'models': [{'name': 'llama3.2'}, 'gemma3']}"))
               (mock_stream []))
            [("models", JArr [JObj [("name", JStr "llama3.2")]; JStr "gemma3"])]
            [([("name", JStr "llama3.2")], "")] (JStr "gemma3") []
            eq_refl eq_refl _ eq_refl).
  constructor; [intros H; discriminate H | constructor].
Defined.

(** X10. When the response is an object whose [models] is missing or
    falsy ([null], an empty list, [false], zero, an empty string or
    object), the two listings return their empty-state messages. *)
Theorem empty_listings (rt : Runtime) (be : Backend) (data : pydict) :
  (lookup "models" data = None
   \/ exists v, lookup "models" data = Some v /\ truthy v = false) ->
  (_request rt be "GET" "tags" None = Ok (JObj data) ->
   list_models rt be
   = Ok (JStr "No models installed. Use pull_model to pull a model (e.g. llama3.2)."))
  /\ (_request rt be "GET" "ps" None = Ok (JObj data) ->
      list_running_models rt be = Ok (JStr "No models currently loaded.")).
Proof.
  intros Hmodels.
  split; intros Hreq;
    unfold list_models, list_models_try, list_running_models,
      list_running_models_try; rewrite Hreq; cbn [bind];
    unfold py_get, py_get_default;
    destruct Hmodels as [->|[v [-> Hv]]]; cbn [bind];
    try reflexivity; unfold py_or; rewrite Hv; reflexivity.
Qed.

Lemma empty_listings_witness :
  list_models test_runtime
    (mock_backend (Response 200 (wire "{'models': null}")) (mock_stream []))
  = Ok (JStr "No models installed. Use pull_model to pull a model (e.g. llama3.2).").
Proof.
  exact (proj1 (empty_listings test_runtime
                  (mock_backend (Response 200 (wire "{'models': null}")) (mock_stream []))
                  [("models", JNull)]
                  (or_intror (ex_intro _ JNull (conj eq_refl eq_refl))))
           eq_refl).
Defined.

(** ** The accumulator *)

Lemma acc_app_nil (st : acc) :
  {| content_parts := (content_parts st ++ [])%list;
     thinking_parts := (thinking_parts st ++ [])%list |} = st.
Proof. destruct st. cbn. rewrite !app_nil_r. reflexivity. Qed.

(** What a line appends does not depend on the state it meets. *)
Lemma process_line_appends (rt : Runtime) (key line : string) (st st' : acc) :
  process_line rt key line st = Ok st' ->
  exists c t,
    (List.length c <= 1)%nat /\ (List.length t <= 1)%nat
    /\ forall st0,
        process_line rt key line st0
        = Ok {| content_parts := (content_parts st0 ++ c)%list;
                thinking_parts := (thinking_parts st0 ++ t)%list |}.
Proof.
  unfold process_line. intros H.
  destruct (is_empty (strip line)).
  { exists [], []. repeat split; try (simpl; lia). intros st0. now rewrite acc_app_nil. }
  destruct (json_loads rt (strip line)) as [chunk|e].
  - destruct chunk as [| | | | | |o]; try discriminate H.
    exists (spec_content_appended key o), (spec_reasoning_appended o).
    split; [unfold spec_content_appended;
            destruct (spec_content_field key o); simpl; lia|].
    split; [apply reasoning_appended_once|].
    intros st0. apply process_chunk_object.
  - destruct (is_JSONDecodeError e); [|discriminate H].
    exists [], []. repeat split; try (simpl; lia). intros st0. now rewrite acc_app_nil.
Qed.

Lemma consume_appends (rt : Runtime) (key : string) (lines : list string) :
  forall st st',
    consume rt key lines st = Ok st' ->
    exists c t,
      (List.length c <= List.length lines)%nat
      /\ (List.length t <= List.length lines)%nat
      /\ forall st0,
          consume rt key lines st0
          = Ok {| content_parts := (content_parts st0 ++ c)%list;
                  thinking_parts := (thinking_parts st0 ++ t)%list |}.
Proof.
  induction lines as [|line lines IH]; intros st st' H.
  - exists [], []. repeat split; try (simpl; lia). intros st0. simpl.
    now rewrite acc_app_nil.
  - cbn [consume] in H.
    destruct (process_line rt key line st) as [st1|e] eqn:E; [|discriminate H].
    cbn [bind] in H.
    destruct (process_line_appends _ _ _ _ _ E) as [c1 [t1 [Hc1 [Ht1 H1]]]].
    destruct (IH _ _ H) as [c2 [t2 [Hc2 [Ht2 H2]]]].
    exists (c1 ++ c2)%list, (t1 ++ t2)%list.
    split; [rewrite length_app; simpl; lia|].
    split; [rewrite length_app; simpl; lia|].
    intros st0. cbn [consume]. rewrite H1. cbn [bind]. rewrite H2.
    cbn [content_parts thinking_parts]. rewrite <- !app_assoc. reflexivity.
Qed.

(** X11. While the loop runs, the two buffers only grow: when a body has
    been consumed, each buffer is the one the loop started from followed
    by what the body appended, at most one element per line, and what the
    body appends is the same from any starting state. *)
Theorem buffers_only_grow (rt : Runtime) (key : string) (lines : list string)
    (st st' : acc) :
  consume rt key lines st = Ok st' ->
  exists c t,
    content_parts st' = (content_parts st ++ c)%list
    /\ thinking_parts st' = (thinking_parts st ++ t)%list
    /\ (List.length c <= List.length lines)%nat
    /\ (List.length t <= List.length lines)%nat
    /\ forall st0,
        consume rt key lines st0
        = Ok {| content_parts := (content_parts st0 ++ c)%list;
                thinking_parts := (thinking_parts st0 ++ t)%list |}.
Proof.
  intros H. destruct (consume_appends _ _ _ _ _ H) as [c [t [Hc [Ht Hall]]]].
  exists c, t. rewrite (Hall st) in H. injection H as <-.
  repeat split; auto.
Qed.

Lemma buffers_only_grow_witness :
  exists c t,
    content_parts {| content_parts := [JStr "x"; JStr "Hi"; JStr " there"];
                     thinking_parts := [] |}
    = ([JStr "x"] ++ c)%list
    /\ thinking_parts {| content_parts := [JStr "x"; JStr "Hi"; JStr " there"];
                         thinking_parts := [] |}
       = ([] ++ t)%list
    /\ (List.length c <= List.length chat_lines)%nat
    /\ (List.length t <= List.length chat_lines)%nat
    /\ forall st0,
        consume test_runtime "content" chat_lines st0
        = Ok {| content_parts := (content_parts st0 ++ c)%list;
                thinking_parts := (thinking_parts st0 ++ t)%list |}.
Proof.
  exact (buffers_only_grow test_runtime "content" chat_lines
           {| content_parts := [JStr "x"]; thinking_parts := [] |}
           {| content_parts := [JStr "x"; JStr "Hi"; JStr " there"];
              thinking_parts := [] |}
           eq_refl).
Defined.

Lemma consume_app (rt : Runtime) (key : string) (first rest : list string) (st : acc) :
  consume rt key (first ++ rest) st
  = (st' <- consume rt key first st ;; consume rt key rest st').
Proof.
  revert st. induction first as [|l first IH]; intros st; [reflexivity|].
  cbn [app consume]. destruct (process_line rt key l st); cbn [bind]; auto.
Qed.

(** X12. A body read in two parts gives the buffers of the parts, one
    after the other: if the first part alone leaves [s1] and the second
    part alone leaves [s2], the whole leaves the content of [s1] followed
    by that of [s2], and the same for the reasoning. *)
Theorem buffers_of_two_parts (rt : Runtime) (key : string)
    (first rest : list string) (s1 s2 : acc) :
  consume rt key first acc_empty = Ok s1 ->
  consume rt key rest acc_empty = Ok s2 ->
  consume rt key (first ++ rest) acc_empty
  = Ok {| content_parts := (content_parts s1 ++ content_parts s2)%list;
          thinking_parts := (thinking_parts s1 ++ thinking_parts s2)%list |}.
Proof.
  intros H1 H2. rewrite consume_app, H1. cbn [bind].
  destruct (consume_appends _ _ _ _ _ H2) as [c [t [_ [_ Hall]]]].
  rewrite (Hall acc_empty) in H2. injection H2 as <-.
  rewrite Hall. reflexivity.
Qed.

Lemma buffers_of_two_parts_witness :
  consume test_runtime "response" (generate_lines ++ thinking_lines) acc_empty
  = Ok {| content_parts := [JStr "Hello"; JStr " world"; JStr "!"; JStr ""; JStr "Yes."];
          thinking_parts := [JStr "Hmm"] |}.
Proof.
  exact (buffers_of_two_parts test_runtime "response" generate_lines thinking_lines
           {| content_parts := [JStr "Hello"; JStr " world"; JStr "!"];
              thinking_parts := [] |}
           {| content_parts := [JStr ""; JStr "Yes."]; thinking_parts := [JStr "Hmm"] |}
           eq_refl eq_refl).
Defined.

(** ** Lines and fragments outside the protocol *)

Lemma process_chunk_non_dict (key : string) (v : json) (st : acc) :
  is_dict v = false -> process_chunk key v st = Err (AttributeError v "get").
Proof. destruct v; try reflexivity; discriminate. Qed.

(** X13. A line that decodes to JSON that is not an object (a number, a
    string, [null], a list) ends the stream with the [AttributeError] of
    its missing [get]: the valid lines before it do not save the call and
    the lines after it are not looked at. *)
Theorem non_object_line_fails_stream (rt : Runtime) (be : Backend) (path : string)
    (payload : pydict) (key : string) (s : stream)
    (before : list string) (line : string) (after : list string)
    (fragments : list pydict) (v : json) :
  send_stream be (stream_request be path payload) = StreamOpened s ->
  is_success (stream_status s) = true ->
  stream_lines s = (before ++ line :: after)%list ->
  carries rt before fragments ->
  strip line <> "" ->
  json_loads rt (strip line) = Ok v ->
  is_dict v = false ->
  _request_stream rt be path payload key = Err (AttributeError v "get").
Proof.
  intros Hsend Hok Hlines Hbefore Hne Hdec Hv.
  rewrite (request_stream_opened _ _ _ _ _ _ Hsend Hok), Hlines, consume_app.
  rewrite (consume_carries _ _ _ _ Hbefore). cbn [bind consume].
  rewrite (process_line_fragment _ _ _ _ _ Hne Hdec).
  rewrite (process_chunk_non_dict _ _ _ Hv). reflexivity.
Qed.

Lemma non_object_line_fails_stream_witness :
  _request_stream test_runtime
    (mock_backend unused (mock_stream (generate_lines ++ ["null"; "not read"])))
    "generate" [] "response"
  = Err (AttributeError JNull "get").
Proof.
  refine (non_object_line_fails_stream test_runtime
            (mock_backend unused (mock_stream (generate_lines ++ ["null"; "not read"])))
            "generate" [] "response"
            {| stream_status := 200;
               stream_lines := (generate_lines ++ ["null"; "not read"])%list;
               stream_drop := None |}
            generate_lines "null" ["not read"] generate_fragments JNull
            eq_refl eq_refl eq_refl _ _ eq_refl eq_refl).
  - unfold generate_lines, generate_fragments. carry.
  - intro H. vm_compute in H. discriminate H.
Defined.

Lemma py_join_not_str (sep : string) (l : list string) (v : json) (r : list json) :
  is_str v = false ->
  py_join sep (map JStr l ++ v :: r)%list = Err (TypeError "join" v).
Proof.
  intros Hv. induction l as [|x l IH].
  - destruct v; try reflexivity; discriminate.
  - cbn [map app py_join]. rewrite IH.
    destruct (map JStr l ++ v :: r)%list eqn:E; [|reflexivity].
    destruct l; discriminate E.
Qed.

(** X14. Over a body of valid NDJSON, the first fragment whose content
    value is neither a string nor falsy makes the call fail when the
    buffer is joined: [_request_stream] raises the [TypeError] of
    [str.join] on that value, and returns no text. *)
Theorem non_text_content_fails_stream (rt : Runtime) (be : Backend) (path : string)
    (payload : pydict) (key : string) (s : stream)
    (before : list pydict) (o : pydict) (after : list pydict) (v : json) :
  send_stream be (stream_request be path payload) = StreamOpened s ->
  is_success (stream_status s) = true ->
  stream_drop s = None ->
  carries rt (stream_lines s) (before ++ o :: after)%list ->
  forallb (well_typed_fragment key) before = true ->
  spec_content_field key o = Some v ->
  truthy v = true ->
  is_str v = false ->
  _request_stream rt be path payload key = Err (TypeError "join" v).
Proof.
  intros Hsend Hok Hdrop Hlines Htyped Hfield Htruthy Hv.
  rewrite (request_stream_opened _ _ _ _ _ _ Hsend Hok).
  rewrite (consume_carries _ _ _ _ Hlines). cbn [bind]. rewrite Hdrop.
  unfold finish. cbn [content_parts acc_empty app].
  rewrite flat_map_app. cbn [flat_map].
  rewrite (content_appended_text _ _ Htyped).
  unfold spec_content_appended at 1. rewrite Hfield.
  unfold py_or. rewrite Htruthy. cbn [app].
  rewrite (py_join_not_str "" _ v _ Hv). reflexivity.
Qed.

Lemma non_text_content_fails_stream_witness :
  _request_stream test_runtime
    (mock_backend unused
       (mock_stream [ wire "{'response':'Hello'}"; wire "{'response':5}";
                      wire "{'response':'!'}" ]))
    "generate" [] "response"
  = Err (TypeError "join" (JInt 5)).
Proof.
  refine (non_text_content_fails_stream test_runtime
            (mock_backend unused
               (mock_stream [ wire "{'response':'Hello'}"; wire "{'response':5}";
                              wire "{'response':'!'}" ]))
            "generate" [] "response"
            {| stream_status := 200;
               stream_lines := [ wire "{'response':'Hello'}"; wire "{'response':5}";
                                 wire "{'response':'!'}" ];
               stream_drop := None |}
            [[("response", JStr "Hello")]] [("response", JInt 5)]
            [[("response", JStr "!")]] (JInt 5)
            eq_refl eq_refl eq_refl _ eq_refl eq_refl eq_refl eq_refl).
  cbn [stream_lines app]. carry.
Defined.

(** ** Padding *)

Lemma lstrip_rstrip_lstrip (s : string) :
  lstrip (rstrip (lstrip s)) = rstrip (lstrip s).
Proof.
  induction s as [|c s IH]; [reflexivity|].
  cbn [lstrip]. destruct (is_space c) eqn:E; [exact IH|].
  cbn [rstrip]. destruct (rstrip s); rewrite ?E; cbn [lstrip]; rewrite E; reflexivity.
Qed.

Lemma rstrip_idempotent (s : string) : rstrip (rstrip s) = rstrip s.
Proof.
  induction s as [|c s IH]; [reflexivity|].
  cbn [rstrip]. destruct (rstrip s) as [|d r] eqn:R.
  - destruct (is_space c) eqn:E; [reflexivity|]. cbn [rstrip]. rewrite E. reflexivity.
  - change (rstrip (String c (String d r)))
      with (match rstrip (String d r) with
            | EmptyString => if is_space c then EmptyString else String c EmptyString
            | String x y => String c (String x y)
            end).
    rewrite IH. reflexivity.
Qed.

Lemma strip_idempotent (s : string) : strip (strip s) = strip s.
Proof. unfold strip. rewrite lstrip_rstrip_lstrip. apply rstrip_idempotent. Qed.

(** X15. Whitespace around a line plays no part: a line and the same line
    with its leading and trailing whitespace removed have the same effect
    on the buffers, and so have two bodies that differ in such padding
    only. *)
Theorem padding_is_ignored (rt : Runtime) (key : string) :
  (forall line st,
      process_line rt key (strip line) st = process_line rt key line st)
  /\ (forall lines st,
         consume rt key (map strip lines) st = consume rt key lines st).
Proof.
  assert (H : forall line st,
             process_line rt key (strip line) st = process_line rt key line st).
  { intros line st. unfold process_line. rewrite strip_idempotent. reflexivity. }
  split; [exact H|].
  induction lines as [|l lines IH]; intros st; [reflexivity|].
  cbn [map consume]. rewrite H.
  destruct (process_line rt key l st); cbn [bind]; auto.
Qed.

(** ** Order of the checks *)

(** X16. The status of a stream is checked before any line is read: a
    streaming chat or generate call whose response has a status outside
    200..299 returns the request-failed string of that status, whatever
    lines the body holds and whether or not the connection would have
    dropped. *)
Theorem status_checked_before_any_line (rt : Runtime) (be : Backend)
    (call : tool_call) (req : request) (s : stream) :
  streaming_request be call = Some req ->
  send_stream be req = StreamOpened s ->
  is_success (stream_status s) = false ->
  tool_try rt be call = Err (HTTPStatusError (stream_status s) None)
  /\ call_tool rt be call
     = Ok (JStr ("Ollama request failed: "
                 ++ exn_str rt (HTTPStatusError (stream_status s) None))).
Proof.
  intros Hreq Hsend Hbad.
  assert (Hstream : forall path payload key,
             req = stream_request be path payload ->
             _request_stream rt be path payload key
             = Err (HTTPStatusError (stream_status s) None)).
  { intros path payload key ->. unfold _request_stream.
    change {| req_method := "POST"; req_url := _api_url be path;
              req_json := Some (JObj (dict_set "stream" (JBool true) payload)) |}
      with (stream_request be path payload).
    rewrite Hsend, Hbad. reflexivity. }
  rewrite call_tool_boundary.
  destruct call as [| | |model messages [|]|model prompt system [|]| | |];
    try discriminate Hreq; injection Hreq as Hreq; symmetry in Hreq;
    cbn [tool_try tool_http_reply]; unfold chat_try, generate_try; cbv zeta;
    rewrite (Hstream _ _ _ Hreq); split; reflexivity.
Qed.

Lemma status_checked_before_any_line_witness :
  call_tool test_runtime
    (mock_backend unused
       (StreamOpened {| stream_status := 503; stream_lines := chat_lines;
                        stream_drop := Some (TransportError "reset") |}))
    (Chat "m" [] true)
  = Ok (JStr "Ollama request failed: HTTP status error").
Proof.
  exact (proj2 (status_checked_before_any_line test_runtime
                  (mock_backend unused
                     (StreamOpened {| stream_status := 503; stream_lines := chat_lines;
                                      stream_drop := Some (TransportError "reset") |}))
                  (Chat "m" [] true) _
                  {| stream_status := 503; stream_lines := chat_lines;
                     stream_drop := Some (TransportError "reset") |}
                  eq_refl eq_refl eq_refl)).
Defined.

(** ** Responses outside the protocol *)

Lemma request_answer (rt : Runtime) (be : Backend) (method path : string)
    (payload : option json) (status : Z) (body : string) :
  send be (unary_request be method path payload) = Response status body ->
  _request rt be method path payload
  = if is_success status then
      if negb (is_empty body) then json_loads rt body else Ok (JObj [])
    else Err (HTTPStatusError status (Some body)).
Proof. intros H. unfold _request. fold (unary_request be method path payload).
  rewrite H. reflexivity. Qed.

Ltac unary_cases c Hstreams Hsend :=
  destruct c as [| | |model messages [|]|model prompt system [|]|model text
                |name [|]|name];
  try discriminate Hstreams;
  cbn [request_of] in Hsend;
  cbn [call_tool];
  unfold list_models, list_running_models, show_model, chat, generate, embed,
    pull_model, delete_model,
    list_models_try, list_running_models_try, show_model_try, chat_try,
    generate_try, embed_try, pull_model_try, delete_model_try;
  cbv zeta.

(** X17. A 2xx response whose body is JSON but not an object (a list, a
    number, a string) makes every tool that reads fields of the response
    return the error string of the missing [get]; [show_model] prints the
    value and [delete_model] confirms the deletion all the same. *)
Theorem non_object_response (rt : Runtime) (be : Backend) (c : tool_call)
    (status : Z) (body : string) (v : json) :
  streams c = false ->
  send be (request_of be c) = Response status body ->
  is_success status = true ->
  body <> "" ->
  json_loads rt body = Ok v ->
  is_dict v = false ->
  call_tool rt be c
  = Ok (JStr match c with
             | ShowModel _ => json_dumps_indent2 rt v
             | DeleteModel name => "Deleted model: " ++ name
             | _ => "Error: " ++ exn_str rt (AttributeError v "get")
             end).
Proof.
  intros Hstreams Hsend Hok Hne Hdec Hv. apply is_empty_false in Hne.
  unary_cases c Hstreams Hsend;
    rewrite (request_answer rt be _ _ _ _ _ Hsend), Hok, Hne, Hdec;
    cbn [negb bind]; unfold py_get;
    rewrite ?(get_on_non_dict v _ _ Hv); reflexivity.
Qed.

Lemma non_object_response_witness :
  call_tool test_runtime
    (mock_backend (Response 200 "[1, 2]") (mock_stream []))
    (Embed "nomic-embed-text" (inl "hello"))
  = Ok (JStr "Error: object has no attribute 'get'").
Proof.
  refine (non_object_response test_runtime
            (mock_backend (Response 200 "[1, 2]") (mock_stream []))
            (Embed "nomic-embed-text" (inl "hello")) 200 "[1, 2]"
            (JArr [JInt 1; JInt 2]) eq_refl eq_refl eq_refl _ eq_refl eq_refl).
  discriminate.
Defined.

(** X18. A 2xx response whose body is not empty and does not decode makes
    every tool that does not stream, [delete_model] included, return the
    failure string of the decoder's exception. *)
Theorem undecodable_body (rt : Runtime) (be : Backend) (c : tool_call)
    (status : Z) (body : string) (e : exn) :
  streams c = false ->
  send be (request_of be c) = Response status body ->
  is_success status = true ->
  body <> "" ->
  json_loads rt body = Err e ->
  call_tool rt be c
  = Ok (JStr (if is_HTTPError e
              then tool_http_reply be c (exn_str rt e)
              else "Error: " ++ exn_str rt e)).
Proof.
  intros Hstreams Hsend Hok Hne Hdec. apply is_empty_false in Hne.
  unary_cases c Hstreams Hsend;
    rewrite (request_answer rt be _ _ _ _ _ Hsend), Hok, Hne, Hdec;
    cbn [negb bind tool_http_reply]; apply except_clauses_err.
Qed.

Lemma undecodable_body_witness :
  call_tool test_runtime
    (mock_backend (Response 200 "<html>ok</html>") (mock_stream []))
    (DeleteModel "old-model")
  = Ok (JStr "Error: invalid JSON").
Proof.
  refine (undecodable_body test_runtime
            (mock_backend (Response 200 "<html>ok</html>") (mock_stream []))
            (DeleteModel "old-model") 200 "<html>ok</html>"
            (JSONDecodeError "<html>ok</html>") eq_refl eq_refl eq_refl _ eq_refl).
  discriminate.
Defined.

(** X19. A 2xx response with an empty body is read as an empty object:
    the listings return their empty-state messages, [chat] and [generate]
    the empty string, [embed] no embeddings and a count of zero,
    [pull_model] the status [unknown], [show_model] the printing of an
    empty object, and [delete_model] its confirmation. *)
Theorem empty_body (rt : Runtime) (be : Backend) (c : tool_call) (status : Z) :
  streams c = false ->
  send be (request_of be c) = Response status "" ->
  is_success status = true ->
  call_tool rt be c
  = Ok (JStr match c with
             | ListModels =>
                 "No models installed. Use pull_model to pull a model (e.g. llama3.2)."
             | ListRunningModels => "No models currently loaded."
             | ShowModel _ => json_dumps_indent2 rt (JObj [])
             | Chat _ _ _ | Generate _ _ _ _ => ""
             | Embed _ _ =>
                 json_dumps rt (JObj [("embeddings", JArr []); ("count", JInt 0)])
             | PullModel _ _ => "Pull status: unknown. Check Ollama for progress."
             | DeleteModel name => "Deleted model: " ++ name
             end).
Proof.
  intros Hstreams Hsend Hok.
  unary_cases c Hstreams Hsend;
    rewrite (request_answer rt be _ _ _ _ _ Hsend), Hok; reflexivity.
Qed.

Lemma empty_body_witness :
  call_tool test_runtime (mock_backend (Response 204 "") (mock_stream []))
    (PullModel "llama3.2" true)
  = Ok (JStr "Pull status: unknown. Check Ollama for progress.").
Proof.
  exact (empty_body test_runtime (mock_backend (Response 204 "") (mock_stream []))
           (PullModel "llama3.2" true) 204 eq_refl eq_refl eq_refl).
Defined.

(** X20. A unary chat response whose [message] is truthy but not an
    object (a string, a number, a list) is an error: [chat] returns the
    error string of the missing [get], where the streaming path would
    pass over such a [message] and look at the top level. *)
Theorem unary_chat_needs_object_message (rt : Runtime) (be : Backend)
    (model : string) (messages : list (list (string * string)))
    (data : pydict) (v : json) :
  _request rt be "POST" "chat" (Some (JObj (chat_payload model messages)))
  = Ok (JObj data) ->
  lookup "message" data = Some v ->
  truthy v = true ->
  is_dict v = false ->
  chat rt be model messages false
  = Ok (JStr ("Error: " ++ exn_str rt (AttributeError v "get")))
  /\ forall st, exists st', process_chunk "content" (JObj data) st = Ok st'.
Proof.
  intros Hreq Hmsg Ht Hv. split.
  - unfold chat, chat_try. cbv zeta. rewrite Hreq. cbn [bind].
    unfold py_get at 1, py_get_default at 1. rewrite Hmsg. cbn [bind].
    unfold py_or. rewrite Ht. unfold py_get.
    rewrite (get_on_non_dict v _ _ Hv). reflexivity.
  - intros st. eexists. apply process_chunk_object.
Qed.

Lemma unary_chat_needs_object_message_witness :
  chat test_runtime
    (mock_backend (Response 200 (wire "{'message': 'Hello back!'}")) (mock_stream []))
    "llama3.2" [] false
  = Ok (JStr "Error: object has no attribute 'get'").
Proof.
  exact (proj1 (unary_chat_needs_object_message test_runtime
                  (mock_backend (Response 200 (wire "{'message': 'Hello back!'}"))
                     (mock_stream []))
                  "llama3.2" [] [("message", JStr "Hello back!")] (JStr "Hello back!")
                  eq_refl eq_refl eq_refl eq_refl)).
Defined.

(** ** What a tool returns *)

Ltac returned_value H :=
  repeat match type of H with
         | bind ?m _ = Ok _ => destruct m; cbn [bind] in H; [|discriminate H]
         | (if ?b then _ else _) = Ok _ => destruct b
         end;
  injection H as <-.

(** X21. Every tool but the unary [chat] and [generate] returns a string
    in every case, success or failure, whatever the backend answers. *)
Theorem tools_return_text (rt : Runtime) (be : Backend) (c : tool_call) :
  match c with
  | Chat _ _ false | Generate _ _ _ false => False
  | _ => True
  end ->
  exists s, call_tool rt be c = Ok (JStr s).
Proof.
  intros Hc. rewrite call_tool_boundary.
  destruct (tool_try rt be c) as [v|e] eqn:E;
    [|rewrite except_clauses_err; eexists; reflexivity].
  cbn [except_clauses].
  destruct c as [| | |model messages [|]|model prompt system [|]|model text
                |name insecure|name];
    try contradiction; cbn [tool_try] in E;
    unfold list_models_try, list_running_models_try, show_model_try, chat_try,
      generate_try, embed_try, pull_model_try, delete_model_try in E;
    cbv zeta in E; returned_value E; eexists; reflexivity.
Qed.

Lemma tools_return_text_witness :
  exists s,
    call_tool test_runtime
      (mock_backend (Response 200 (wire "{'status': 7}")) (mock_stream []))
      (PullModel "llama3.2" false)
    = Ok (JStr s).
Proof.
  exact (tools_return_text test_runtime
           (mock_backend (Response 200 (wire "{'status': 7}")) (mock_stream []))
           (PullModel "llama3.2" false) I).
Defined.

(** X22. Without thinking text, the unary [chat] and [generate] return
    the content value of the response as it is: a content that is truthy
    and not a string (a number, a list) comes back as that value, not as
    text. *)
Theorem unary_reply_is_the_content_value (rt : Runtime) (be : Backend) :
  (forall model messages data m v,
      _request rt be "POST" "chat" (Some (JObj (chat_payload model messages)))
      = Ok (JObj data) ->
      lookup "message" data = Some (JObj m) ->
      lookup "content" m = Some v ->
      truthy v = true ->
      truthy (dict_get m "thinking") = false ->
      chat rt be model messages false = Ok v)
  /\ (forall model prompt system data v,
         _request rt be "POST" "generate"
           (Some (JObj (dict_set "stream" (JBool false)
                          (generate_payload model prompt system))))
         = Ok (JObj data) ->
         lookup "response" data = Some v ->
         truthy v = true ->
         truthy (dict_get data "thinking") = false ->
         generate rt be model prompt system false = Ok v).
Proof.
  split.
  - intros model messages data m v Hreq Hmsg Hc Hv Ht.
    unfold chat, chat_try. cbv zeta. rewrite Hreq. cbn [bind].
    unfold py_get at 1, py_get_default at 1. rewrite Hmsg. cbn [bind].
    rewrite py_or_dict. unfold py_get, py_get_default, dict_get in *.
    rewrite Hc. cbn [bind].
    destruct (lookup "thinking" m); cbn [bind]; rewrite Ht;
      unfold py_or; rewrite Hv; reflexivity.
  - intros model prompt system data v Hreq Hc Hv Ht.
    unfold generate, generate_try. cbv zeta. rewrite Hreq. cbn [bind].
    unfold py_get, py_get_default, dict_get in *.
    rewrite Hc. cbn [bind].
    destruct (lookup "thinking" data); cbn [bind]; rewrite Ht;
      unfold py_or; rewrite Hv; reflexivity.
Qed.

Lemma unary_reply_is_the_content_value_witness :
  generate test_runtime
    (mock_backend (Response 200 (wire "{'response': 5}")) (mock_stream []))
    "llama3.2" "count" None false
  = Ok (JInt 5).
Proof.
  exact (proj2 (unary_reply_is_the_content_value test_runtime
                  (mock_backend (Response 200 (wire "{'response': 5}")) (mock_stream [])))
           "llama3.2" "count" None [("response", JInt 5)] (JInt 5)
           eq_refl eq_refl eq_refl eq_refl).
Defined.

(** ** The integration script *)

Lemma substring_prefix_length (n : nat) (s : string) :
  (String.length (substring 0 n s) <= n)%nat.
Proof.
  revert s. induction n as [|n IH]; intros s.
  - destruct s; simpl; lia.
  - destruct s as [|c s]; simpl; [lia|]. specialize (IH s). lia.
Qed.

Lemma substring_prefix_whole (n : nat) (s : string) :
  (String.length s <= n)%nat -> substring 0 n s = s.
Proof.
  revert s. induction n as [|n IH]; intros s H.
  - destruct s; simpl in *; [reflexivity | lia].
  - destruct s as [|c s]; simpl in *; [reflexivity|]. rewrite IH by lia. reflexivity.
Qed.

Lemma length_append (a b : string) :
  String.length (a ++ b) = (String.length a + String.length b)%nat.
Proof. induction a as [|c a IH]; simpl; [reflexivity | now rewrite IH]. Qed.

(** X23. When the server's line is not blank and is not JSON,
    [send_request] returns, without raising, an error object whose message
    is ["Invalid JSON: "] followed by at most the first 200 characters of
    the stripped line: never more than 214 characters, and the whole
    stripped line when it has at most 200. *)
Theorem invalid_reply_is_bounded (rt : Runtime) (raw : string) :
  malformed rt raw = true ->
  exists message,
    decode_reply rt (Some raw)
    = Ok (Some (JObj [("error", JObj [("message", JStr message)])]))
    /\ (String.length message <= 214)%nat
    /\ ((String.length (strip raw) <= 200)%nat ->
        message = "Invalid JSON: " ++ strip raw).
Proof.
  unfold malformed, decode_reply. intros H.
  apply andb_true_iff in H as [Hne H].
  destruct (is_empty (strip raw)); [discriminate Hne|].
  destruct (json_loads rt (strip raw)) as [v|e]; [discriminate H|]. rewrite H.
  eexists. split; [reflexivity|]. split.
  - rewrite length_append. pose proof (substring_prefix_length 200 (strip raw)).
    simpl String.length at 1. lia.
  - intros Hlen. rewrite (substring_prefix_whole _ _ Hlen). reflexivity.
Qed.

Lemma invalid_reply_is_bounded_witness :
  exists message,
    decode_reply test_runtime (Some "  Traceback (most recent call last):  ")
    = Ok (Some (JObj [("error", JObj [("message", JStr message)])]))
    /\ (String.length message <= 214)%nat
    /\ ((String.length (strip "  Traceback (most recent call last):  ") <= 200)%nat ->
        message = "Invalid JSON: " ++ strip "  Traceback (most recent call last):  ").
Proof.
  exact (invalid_reply_is_bounded test_runtime
           "  Traceback (most recent call last):  " eq_refl).
Defined.

Lemma filter_nil {A : Type} (f : A -> bool) (l : list A) :
  filter f l = [] <-> forall x, In x l -> f x = false.
Proof.
  induction l as [|a l IH]; simpl.
  - split; [intros _ x [] | reflexivity].
  - destruct (f a) eqn:E; split.
    + discriminate.
    + intros H. specialize (H a (or_introl eq_refl)). congruence.
    + intros H x [<-|Hx]; [exact E | now apply IH].
    + intros H. apply IH. intros x Hx. apply H. now right.
Qed.

(** X24. The [tools/list] step of the integration script finds nothing
    missing exactly when every expected name is among the names the
    server lists; with the tools [server.py] registers it finds nothing
    missing, and keeps finding nothing when more tools are registered. *)
Theorem tools_list_check (names : list string) :
  (missing names = [] <-> forall e, In e expected_tools -> In e names)
  /\ missing registered_tools = []
  /\ ((forall name, In name registered_tools -> In name names) ->
      missing names = []).
Proof.
  assert (H : missing names = [] <-> forall e, In e expected_tools -> In e names).
  { unfold missing. rewrite filter_nil. split; intros H e He.
    - specialize (H e He). apply negb_false_iff in H.
      apply existsb_exists in H as [x [Hx Heq]].
      apply String.eqb_eq in Heq. now subst.
    - apply negb_false_iff. apply existsb_exists. exists e.
      split; [now apply H | apply String.eqb_refl]. }
  split; [exact H|]. split; [reflexivity|].
  intros Hsub. apply H. intros e He. apply Hsub. exact He.
Qed.

(** ** Nested and top-level fields *)

(** X25. The two lookups of a fragment do not fall back alike.  The
    reasoning falls back on emptiness: a nested [thinking] that is absent
    or empty gives way to a non-empty top-level one.  The content falls
    back on absence only: a nested content key that is present, even with
    an empty or [null] value, is what is appended, and the top-level
    content is left out. *)
Theorem fallback_asymmetry (key : string) (o m : pydict) (st : acc) :
  lookup "message" o = Some (JObj m) ->
  (forall top,
      truthy (dict_get m "thinking") = false ->
      lookup "thinking" o = Some top -> truthy top = true ->
      exists content,
        process_chunk key (JObj o) st
        = Ok {| content_parts := content;
                thinking_parts := (thinking_parts st ++ [top])%list |})
  /\ (forall nested,
         lookup key m = Some nested -> truthy nested = false ->
         exists thinking,
           process_chunk key (JObj o) st
           = Ok {| content_parts := (content_parts st ++ [JStr ""])%list;
                   thinking_parts := thinking |}).
Proof.
  intros Hm. rewrite process_chunk_object. split.
  - intros top Hnested Htop Ht. eexists. f_equal. f_equal. f_equal.
    unfold spec_reasoning_appended, spec_reasoning_field. rewrite Hm.
    rewrite nonempty_field_get in Hnested.
    destruct (nonempty_field "thinking" m); [discriminate Hnested|].
    unfold nonempty_field. rewrite Htop, Ht. reflexivity.
  - intros nested Hk Hfalsy. eexists. f_equal. f_equal. f_equal.
    unfold spec_content_appended, spec_content_field. rewrite Hm, Hk.
    unfold py_or. rewrite Hfalsy. reflexivity.
Qed.

Lemma fallback_asymmetry_witness :
  exists thinking,
    process_chunk "content"
      (JObj [("message", JObj [("content", JStr ""); ("thinking", JStr "")]);
             ("content", JStr "top content"); ("thinking", JStr "top thinking")])
      acc_empty
    = Ok {| content_parts := [JStr ""]; thinking_parts := thinking |}.
Proof.
  exact (proj2 (fallback_asymmetry "content"
                  [("message", JObj [("content", JStr ""); ("thinking", JStr "")]);
                   ("content", JStr "top content"); ("thinking", JStr "top thinking")]
                  [("content", JStr ""); ("thinking", JStr "")]
                  acc_empty eq_refl)
           (JStr "") eq_refl eq_refl).
Defined.

(** ** Streaming and not streaming *)

(** X26. For [generate], a response object sent as the single fragment
    of a stream gives what the same object gives as a unary response,
    but for the thinking text, which the streaming path trims and the
    unary path inserts as it is. *)
Theorem one_fragment_stream_and_unary (rt : Runtime) (be : Backend)
    (model prompt : string) (system : option string) (s : stream) (data : pydict) :
  _request rt be "POST" "generate"
    (Some (JObj (dict_set "stream" (JBool false)
                   (generate_payload model prompt system))))
  = Ok (JObj data) ->
  send_stream be (stream_request be "generate" (generate_payload model prompt system))
  = StreamOpened s ->
  is_success (stream_status s) = true ->
  stream_drop s = None ->
  carries rt (stream_lines s) [data] ->
  lookup "message" data = None ->
  well_typed_fragment "response" data = true ->
  let content := spec_field_text "response" data in
  let reply (trim : string -> string) :=
    match lookup "thinking" data with
    | Some (JStr t) =>
        if is_empty t then content
        else "[Thinking] " ++ trim t ++ nl ++ nl ++ content
    | _ => content
    end in
  generate rt be model prompt system false = Ok (JStr (reply (fun t => t)))
  /\ generate rt be model prompt system true = Ok (JStr (reply strip)).
Proof.
  intros Hreq Hsend Hok Hdrop Hlines Hmsg Htyped content reply. split.
  - unfold generate, generate_try. cbv zeta. rewrite Hreq. cbn [bind].
    unfold well_typed_fragment in Htyped.
    apply andb_true_iff in Htyped as [Htyped _].
    apply andb_true_iff in Htyped as [Hc Ht].
    rewrite (unary_reply_text rt "response" data Hc Ht). reflexivity.
  - unfold generate, generate_try. cbv zeta.
    assert (Hall : forallb (well_typed_fragment "response") [data] = true)
      by (simpl; now rewrite Htyped).
    rewrite (request_stream_valid _ _ _ _ _ _ _ Hsend Hok Hdrop Hlines Hall).
    cbn [bind except_clauses]. f_equal. f_equal.
    unfold well_typed_fragment, field_is_text in Htyped. rewrite Hmsg in Htyped.
    assert (Hcontent : spec_content "response" [data] = content).
    { unfold spec_content, spec_content_pieces, pieces, content, spec_field_text,
        spec_content_field. cbn [flat_map]. rewrite Hmsg.
      destruct (lookup "response" data); reflexivity. }
    assert (Hblock : spec_reasoning_block [data]
                     = match lookup "thinking" data with
                       | Some (JStr t) =>
                           if is_empty t then ""
                           else "[Thinking] " ++ strip t ++ nl ++ nl
                       | _ => ""
                       end).
    { unfold spec_reasoning_block, spec_reasoning_pieces, pieces,
        spec_reasoning_field, nonempty_field. cbn [flat_map]. rewrite Hmsg.
      destruct (lookup "response" data) as [c|];
        destruct (lookup "thinking" data) as [[| | | |t| |]|];
        try (rewrite andb_false_r in Htyped); try discriminate Htyped;
        try reflexivity; destruct t; reflexivity. }
    rewrite Hcontent, Hblock. unfold reply.
    destruct (lookup "thinking" data) as [[| | | |t| |]|]; try reflexivity.
    destruct (is_empty t); [reflexivity|]. now rewrite !append_assoc.
Qed.

Lemma one_fragment_stream_and_unary_witness :
  generate test_runtime
    (mock_backend (Response 200 (wire "{'thinking':' Hmm ','response':'Yes.'}"))
       (mock_stream [ wire "{'thinking':' Hmm ','response':'Yes.'}" ]))
    "m" "?" None false
  = Ok (JStr ("[Thinking]  Hmm " ++ nl ++ nl ++ "Yes."))
  /\ generate test_runtime
       (mock_backend (Response 200 (wire "{'thinking':' Hmm ','response':'Yes.'}"))
          (mock_stream [ wire "{'thinking':' Hmm ','response':'Yes.'}" ]))
       "m" "?" None true
     = Ok (JStr ("[Thinking] Hmm" ++ nl ++ nl ++ "Yes.")).
Proof.
  refine (one_fragment_stream_and_unary test_runtime
            (mock_backend (Response 200 (wire "{'thinking':' Hmm ','response':'Yes.'}"))
               (mock_stream [ wire "{'thinking':' Hmm ','response':'Yes.'}" ]))
            "m" "?" None
            {| stream_status := 200;
               stream_lines := [ wire "{'thinking':' Hmm ','response':'Yes.'}" ];
               stream_drop := None |}
            [("thinking", JStr " Hmm "); ("response", JStr "Yes.")]
            eq_refl eq_refl eq_refl eq_refl _ eq_refl eq_refl).
  cbn [stream_lines]. carry.
Defined.
